(** * Execution context and pooled transport of the bot SDK

    A shallow embedding of [telegram/ext/_callbackcontext.py] and
    [telegram/request/_httpxrequest.py], with the properties of their
    specification stated and proved over it.

    Python objects are dynamically typed, so attribute slots hold values of
    one universal type [value]; dictionaries are objects on a heap and are
    referred to by location, which is what makes "the same dict" expressible;
    raising is an [outcome] beside the state reached when the fault was
    raised (a raise does not roll anything back). *)

From Stdlib Require Import ZArith QArith.
From stdpp Require Import base option gmap strings list.

Set Warnings "-register-all".

Open Scope Z_scope.
Open Scope string_scope.

(** ** Python object model *)

Module Py.

(** Exception classes: the builtins the two files can meet, the two faults of
    [telegram.error] that the transport raises, and the exception hierarchy
    of the [httpx] client library. *)
Inductive exn_class :=
  | BaseException | Exception
  | AttributeError | TypeError | LookupError | IndexError | KeyError
  | RuntimeError | ValueError
  | TimedOut | NetworkError
  | HTTPError | RequestError | TransportError
  | TimeoutException | ConnectTimeout | ReadTimeout | WriteTimeout | PoolTimeout
  | Httpx_NetworkError | ConnectError | ReadError | WriteError | CloseError
  | ProtocolError | LocalProtocolError | RemoteProtocolError
  | ProxyError | UnsupportedProtocol
  | DecodingError | TooManyRedirects | HTTPStatusError
  | InvalidURL | CookieConflict | StreamError.

#[global] Instance exn_class_eq_dec : EqDecision exn_class.
Proof. solve_decision. Defined.

(** The direct base class ([None] for the root). *)
Definition base (c : exn_class) : option exn_class :=
  match c with
  | BaseException => None
  | Exception => Some BaseException
  | AttributeError | TypeError | LookupError | RuntimeError | ValueError => Some Exception
  | IndexError | KeyError => Some LookupError
  | NetworkError => Some Exception
  | TimedOut => Some NetworkError
  | HTTPError => Some Exception
  | RequestError | HTTPStatusError => Some HTTPError
  | TransportError | DecodingError | TooManyRedirects => Some RequestError
  | TimeoutException | Httpx_NetworkError | ProtocolError
  | ProxyError | UnsupportedProtocol => Some TransportError
  | ConnectTimeout | ReadTimeout | WriteTimeout | PoolTimeout => Some TimeoutException
  | ConnectError | ReadError | WriteError | CloseError => Some Httpx_NetworkError
  | LocalProtocolError | RemoteProtocolError => Some ProtocolError
  | InvalidURL | CookieConflict => Some Exception
  | StreamError => Some RuntimeError
  end.

(** [issubclass_fuel n c d]: [d] is reached from [c] in at most [n] steps
    along [base]. *)
Fixpoint issubclass_fuel (n : nat) (c d : exn_class) : bool :=
  if decide (c = d) then true
  else match n with
       | O => false
       | S n' => match base c with
                 | Some b => issubclass_fuel n' b d
                 | None => false
                 end
       end.

(** The hierarchy is seven classes deep at most. *)
Definition issubclass (c d : exn_class) : bool := issubclass_fuel 8 c d.

Record exn := mk_exn { exn_cls : exn_class; exn_msg : string }.

Definition isinstance (e : exn) (c : exn_class) : bool := issubclass (exn_cls e) c.

(** [except (c1, c2, ...)]. *)
Definition catches (cs : list exn_class) (e : exn) : bool :=
  existsb (isinstance e) cs.

(** Heap locations of dict objects. *)
Definition loc := positive.

(** Hashable dictionary keys. *)
Inductive key := KInt (n : Z) | KStr (s : string).

#[global] Instance key_eq_dec : EqDecision key.
Proof. solve_decision. Defined.

#[global] Instance key_countable : Countable key.
Proof.
  refine (inj_countable'
            (fun k => match k with KInt n => inl n | KStr s => inr s end)
            (fun x => match x with inl n => KInt n | inr s => KStr s end) _).
  by intros [].
Defined.

(** Collaborators of the context whose classes live outside these two files. *)

(** Modelled from the spec: [telegram.Bot] and [telegram.ext.ExtBot] are not
    among the sources. The bot "exposes a flag indicating whether arbitrary
    callback-data caching is enabled"; only an [ExtBot] has that flag. *)
Inductive Bot :=
  | PlainBot
  | ExtBot (arbitrary_callback_data : bool).

(** Modelled from the spec: [telegram.ext.Dispatcher] is not among the
    sources. It "exposes bot, job_queue, update_queue and three keyed stores:
    chat-id to dict, user-id to dict, and a single global dict"; the context
    "only reads these references; it never creates or destroys store
    entries". A store maps an id to the location of that id's dict. *)
Record Dispatcher := mk_Dispatcher {
  d_bot : Bot;
  d_bot_data : loc;
  d_chat_data : gmap Z loc;
  d_user_data : gmap Z loc;
  d_job_queue : string;
  d_update_queue : string
}.

(** Modelled from the spec: [telegram.Update], [telegram.Chat] and
    [telegram.User] are not among the sources. An update carries an optional
    "effective chat" and an optional "effective user", each with an integer
    id; these objects define no truth value of their own, so [if chat:] tests
    presence. *)
Record Chat := mk_Chat { chat_id : Z }.
Record User := mk_User { user_id : Z }.
Record Update := mk_Update {
  effective_chat : option Chat;
  effective_user : option User
}.

(** Modelled from the spec: [telegram.CallbackQuery] is not among the
    sources; the cache finds a query by its id. *)
Record CallbackQuery := mk_CallbackQuery { cq_id : string }.

(** Values. [VDict] is a reference: two [VDict l] are the same dict object.
    [VObj] stands for any object whose inside the context never looks at
    (a job, a match object, a queue, a bound method). *)
Inductive value :=
  | VNone
  | VBool (b : bool)
  | VInt (n : Z)
  | VStr (s : string)
  | VTuple (xs : list value)
  | VList (xs : list value)
  | VDict (l : loc)
  | VExc (e : exn)
  | VObj (tag : string)
  | VBot (b : Bot)
  | VDispatcher (d : Dispatcher)
  | VUpdate (u : Update).

Abbreviation pydict := (gmap key value).

(** Outcome of a call: a returned value or a raised exception. *)
Inductive outcome (A : Type) :=
  | Return (a : A)
  | Raise (e : exn).
Arguments Return {A} a.
Arguments Raise {A} e.

Definition raise {A} (c : exn_class) (msg : string) : outcome A :=
  Raise (mk_exn c msg).

Definition raised_class {A} (o : outcome A) : option exn_class :=
  match o with
  | Return _ => None
  | Raise e => Some (exn_cls e)
  end.

(** Dict objects on the heap. A location without an entry reads as the empty
    dict, so every operation is total. *)
Definition heap_dict (h : gmap loc pydict) (l : loc) : pydict :=
  default ∅ (h !! l).

(** [d[k] = v] on the dict object at [l]. *)
Definition dict_setitem (l : loc) (k : key) (v : value) (h : gmap loc pydict)
  : gmap loc pydict :=
  <[l := <[k := v]> (heap_dict h l)]> h.

(** [d[k]]: [KeyError] when the key is missing. *)
Definition dict_getitem (h : gmap loc pydict) (l : loc) (k : key) : outcome value :=
  match heap_dict h l !! k with
  | Some v => Return v
  | None => raise KeyError "key"
  end.

(** Truth value of an object, as [if x:] tests it. *)
Definition truthy (h : gmap loc pydict) (v : value) : bool :=
  match v with
  | VNone => false
  | VBool b => b
  | VInt n => negb (Z.eqb n 0)
  | VStr s => negb (String.eqb s EmptyString)
  | VTuple xs | VList xs => negb (Nat.eqb (length xs) 0)
  | VDict l => negb (Nat.eqb (size (heap_dict h l)) 0)
  | VExc _ | VObj _ | VBot _ | VDispatcher _ | VUpdate _ => true
  end.

(** [x[i]] for a literal index [i >= 0]: sequences raise [IndexError] out of
    range, a dict is asked for the key [i], anything else is not
    subscriptable. *)
Definition subscript (h : gmap loc pydict) (v : value) (i : nat) : outcome value :=
  match v with
  | VTuple xs | VList xs =>
      match xs !! i with
      | Some x => Return x
      | None => raise IndexError "index out of range"
      end
  | VStr s =>
      match String.get i s with
      | Some a => Return (VStr (String a EmptyString))
      | None => raise IndexError "string index out of range"
      end
  | VDict l => dict_getitem h l (KInt (Z.of_nat i))
  | _ => raise TypeError "object is not subscriptable"
  end.

(** [isinstance(x, Update)]. *)
Definition is_Update (x : value) : bool :=
  match x with
  | VUpdate _ => true
  | _ => false
  end.

(** Modelled from the spec: [telegram.ext.CallbackDataCache] is not among
    the sources. [drop_data] "removes any cached payload for that query's
    callback-data id from the cache; fails with a not-found fault only if the
    callback query's id itself cannot be located in the cache (a missing
    cached payload for a found id is not an error)". The cache therefore
    keeps two tables: query id to callback-data id, and callback-data id to
    payload. *)
Record CallbackDataCache := mk_Cache {
  callback_queries : gmap string string;
  keyboard_data : gmap string value
}.

Definition drop_data (q : CallbackQuery) (c : CallbackDataCache)
  : outcome unit * CallbackDataCache :=
  match callback_queries c !! cq_id q with
  | None => (raise KeyError "CallbackQuery was not found in cache.", c)
  | Some data_id =>
      (Return tt,
       {| callback_queries := delete (cq_id q) (callback_queries c);
          keyboard_data := delete data_id (keyboard_data c) |})
  end.

(** Observable accesses to the collaborators' tables, kept as a trace. *)
Inductive store_kind := ChatStore | UserStore.

Inductive Event :=
  | StoreGet (k : store_kind) (id : Z)
  | CacheDrop (query_id : string).

(** Everything a context's methods can read or change besides the context
    itself. *)
Record World := mk_World {
  heap : gmap loc pydict;
  cache : CallbackDataCache;
  trace : list Event
}.

Definition set_heap (h : gmap loc pydict) (w : World) : World :=
  {| heap := h; cache := cache w; trace := trace w |}.

Definition set_cache (c : CallbackDataCache) (w : World) : World :=
  {| heap := heap w; cache := c; trace := trace w |}.

Definition record (e : Event) (w : World) : World :=
  {| heap := heap w; cache := cache w; trace := trace w ++ [e] |}.

(** Computations over the world that may raise; the world reached when the
    exception was raised is kept. *)
Definition M (A : Type) : Type := World → outcome A * World.

#[global] Instance M_ret : MRet M := λ A a w, (Return a, w).

#[global] Instance M_bind : MBind M := λ A B f m w,
  match m w with
  | (Return a, w') => f a w'
  | (Raise e, w') => (Raise e, w')
  end.

Definition throw {A} (c : exn_class) (msg : string) : M A :=
  λ w, (raise c msg, w).

(** A computation that only reads the world. *)
Definition reading {A} (f : World → outcome A) : M A := λ w, (f w, w).

(** Modelled from the spec: the class of the dispatcher's keyed stores is
    not among the sources. "Creating the per-id dict there if absent is the
    dispatcher's responsibility, not the context's", so [store[id]] is a
    plain lookup, which raises [KeyError] when the id has no entry. *)
Definition store_getitem (k : store_kind) (store : gmap Z loc) (id : Z) : M loc :=
  λ w, match store !! id with
       | Some l => (Return l, record (StoreGet k id) w)
       | None => (raise KeyError "id", record (StoreGet k id) w)
       end.

(** A new, empty dict object. *)
Definition new_dict : M loc :=
  λ w, let l := fresh (dom (heap w)) in
       (Return l, set_heap (<[l := ∅]> (heap w)) w).

End Py.

(** ** [telegram/ext/_callbackcontext.py] *)

Module CallbackContext.
Import Py.

(** The instance: the nine value slots of [__slots__] and the instance
    dict, which holds every attribute that is not a slot. Any slot can hold
    any value: [setattr] does not check the annotations. *)
Record Context := mk_Context {
  _dispatcher : value;
  _chat_id_and_data : value;
  _user_id_and_data : value;
  args : value;
  matches : value;
  error : value;
  job : value;
  async_args : value;
  async_kwargs : value;
  __dict__ : loc
}.

Definition set__dispatcher (v : value) (c : Context) : Context :=
  mk_Context v (_chat_id_and_data c) (_user_id_and_data c) (args c) (matches c)
    (error c) (job c) (async_args c) (async_kwargs c) (__dict__ c).
Definition set__chat_id_and_data (v : value) (c : Context) : Context :=
  mk_Context (_dispatcher c) v (_user_id_and_data c) (args c) (matches c)
    (error c) (job c) (async_args c) (async_kwargs c) (__dict__ c).
Definition set__user_id_and_data (v : value) (c : Context) : Context :=
  mk_Context (_dispatcher c) (_chat_id_and_data c) v (args c) (matches c)
    (error c) (job c) (async_args c) (async_kwargs c) (__dict__ c).
Definition set_args (v : value) (c : Context) : Context :=
  mk_Context (_dispatcher c) (_chat_id_and_data c) (_user_id_and_data c) v (matches c)
    (error c) (job c) (async_args c) (async_kwargs c) (__dict__ c).
Definition set_matches (v : value) (c : Context) : Context :=
  mk_Context (_dispatcher c) (_chat_id_and_data c) (_user_id_and_data c) (args c) v
    (error c) (job c) (async_args c) (async_kwargs c) (__dict__ c).
Definition set_error (v : value) (c : Context) : Context :=
  mk_Context (_dispatcher c) (_chat_id_and_data c) (_user_id_and_data c) (args c) (matches c)
    v (job c) (async_args c) (async_kwargs c) (__dict__ c).
Definition set_job (v : value) (c : Context) : Context :=
  mk_Context (_dispatcher c) (_chat_id_and_data c) (_user_id_and_data c) (args c) (matches c)
    (error c) v (async_args c) (async_kwargs c) (__dict__ c).
Definition set_async_args (v : value) (c : Context) : Context :=
  mk_Context (_dispatcher c) (_chat_id_and_data c) (_user_id_and_data c) (args c) (matches c)
    (error c) (job c) v (async_kwargs c) (__dict__ c).
Definition set_async_kwargs (v : value) (c : Context) : Context :=
  mk_Context (_dispatcher c) (_chat_id_and_data c) (_user_id_and_data c) (args c) (matches c)
    (error c) (job c) (async_args c) v (__dict__ c).
Definition set___dict__ (l : loc) (c : Context) : Context :=
  mk_Context (_dispatcher c) (_chat_id_and_data c) (_user_id_and_data c) (args c) (matches c)
    (error c) (job c) (async_args c) (async_kwargs c) l.

(** [__init__(self, dispatcher)]. *)
Definition __init__ (dispatcher : Dispatcher) : M Context :=
  d ← new_dict;
  mret {| _dispatcher := VDispatcher dispatcher;
          _chat_id_and_data := VNone;
          _user_id_and_data := VNone;
          args := VNone;
          matches := VNone;
          error := VNone;
          job := VNone;
          async_args := VNone;
          async_kwargs := VNone;
          __dict__ := d |}.

(** Attribute access on whatever the [_dispatcher] slot holds. *)
Definition dispatcher_attr (f : Dispatcher → value) (v : value) : outcome value :=
  match v with
  | VDispatcher d => Return (f d)
  | _ => raise AttributeError "object has no such attribute"
  end.

(** Read-only forwarding properties. *)
Definition dispatcher (self : Context) : outcome value :=
  Return (_dispatcher self).

Definition bot (self : Context) : outcome value :=
  dispatcher_attr (λ d, VBot (d_bot d)) (_dispatcher self).

Definition job_queue (self : Context) : outcome value :=
  dispatcher_attr (λ d, VObj (d_job_queue d)) (_dispatcher self).

Definition update_queue (self : Context) : outcome value :=
  dispatcher_attr (λ d, VObj (d_update_queue d)) (_dispatcher self).

(** The three data views, and their setters. *)
Definition bot_data (self : Context) : outcome value :=
  match dispatcher self with
  | Return d => dispatcher_attr (λ d, VDict (d_bot_data d)) d
  | Raise e => Raise e
  end.

Definition bot_data_setter (self : Context) (v : value) : M unit :=
  throw AttributeError
    "You can not assign a new value to bot_data, see https://git.io/Jt6ic".

Definition chat_data (self : Context) (w : World) : outcome value :=
  if truthy (heap w) (_chat_id_and_data self)
  then subscript (heap w) (_chat_id_and_data self) 1
  else Return VNone.

Definition chat_data_setter (self : Context) (v : value) : M unit :=
  throw AttributeError
    "You can not assign a new value to chat_data, see https://git.io/Jt6ic".

Definition user_data (self : Context) (w : World) : outcome value :=
  if truthy (heap w) (_user_id_and_data self)
  then subscript (heap w) (_user_id_and_data self) 1
  else Return VNone.

Definition user_data_setter (self : Context) (v : value) : M unit :=
  throw AttributeError
    "You can not assign a new value to user_data, see https://git.io/Jt6ic".

(** [match]: [self.matches[0]], with [IndexError] and [TypeError] turned
    into [None]. *)
Definition match_ (self : Context) (w : World) : outcome value :=
  match subscript (heap w) (matches self) 0 with
  | Return v => Return v
  | Raise e => if catches [IndexError; TypeError] e then Return VNone else Raise e
  end.

(** *** Attribute protocol of the class

    What [setattr(self, name, v)] and [getattr(self, name)] do depends on
    what the class declares under [name]: a property, a slot, one of the two
    special attributes every instance has, or nothing (the instance dict). *)

Inductive property :=
  | P_dispatcher | P_bot_data | P_chat_data | P_user_data
  | P_bot | P_job_queue | P_update_queue | P_match.

Inductive slot :=
  | S__dispatcher | S__chat_id_and_data | S__user_id_and_data
  | S_args | S_matches | S_error | S_job | S_async_args | S_async_kwargs.

Inductive attribute :=
  | Property (p : property)
  | Slot (s : slot)
  | Special_dict
  | Special_class
  | Plain.

Definition attribute_table : list (string * attribute) :=
  [ ("dispatcher", Property P_dispatcher);
    ("bot_data", Property P_bot_data);
    ("chat_data", Property P_chat_data);
    ("user_data", Property P_user_data);
    ("bot", Property P_bot);
    ("job_queue", Property P_job_queue);
    ("update_queue", Property P_update_queue);
    ("match", Property P_match);
    ("_dispatcher", Slot S__dispatcher);
    ("_chat_id_and_data", Slot S__chat_id_and_data);
    ("_user_id_and_data", Slot S__user_id_and_data);
    ("args", Slot S_args);
    ("matches", Slot S_matches);
    ("error", Slot S_error);
    ("job", Slot S_job);
    ("async_args", Slot S_async_args);
    ("async_kwargs", Slot S_async_kwargs);
    ("__dict__", Special_dict);
    ("__class__", Special_class) ].

Fixpoint assoc (name : string) (t : list (string * attribute)) : attribute :=
  match t with
  | [] => Plain
  | (n, a) :: t' => if String.eqb name n then a else assoc name t'
  end.

Definition classify (name : string) : attribute := assoc name attribute_table.

(** Methods and class attributes of the class body, with the names every
    class body defines; an instance attribute of the same name hides them.
    Names inherited from [object] and [Generic] are not listed. *)
Definition class_attributes : list string :=
  [ "__module__"; "__qualname__"; "__doc__"; "DEFAULT_TYPE"; "__slots__";
    "__init__"; "refresh_data"; "drop_callback_data"; "from_error";
    "from_update"; "from_job"; "update" ].

Definition slot_name (s : slot) : string :=
  match s with
  | S__dispatcher => "_dispatcher"
  | S__chat_id_and_data => "_chat_id_and_data"
  | S__user_id_and_data => "_user_id_and_data"
  | S_args => "args"
  | S_matches => "matches"
  | S_error => "error"
  | S_job => "job"
  | S_async_args => "async_args"
  | S_async_kwargs => "async_kwargs"
  end.

Definition get_slot (s : slot) (self : Context) : value :=
  match s with
  | S__dispatcher => _dispatcher self
  | S__chat_id_and_data => _chat_id_and_data self
  | S__user_id_and_data => _user_id_and_data self
  | S_args => args self
  | S_matches => matches self
  | S_error => error self
  | S_job => job self
  | S_async_args => async_args self
  | S_async_kwargs => async_kwargs self
  end.

Definition set_slot (s : slot) (v : value) (self : Context) : Context :=
  match s with
  | S__dispatcher => set__dispatcher v self
  | S__chat_id_and_data => set__chat_id_and_data v self
  | S__user_id_and_data => set__user_id_and_data v self
  | S_args => set_args v self
  | S_matches => set_matches v self
  | S_error => set_error v self
  | S_job => set_job v self
  | S_async_args => set_async_args v self
  | S_async_kwargs => set_async_kwargs v self
  end.

(** [setattr(self, name, v)]. The result is the instance after the
    assignment; when it raises, the instance is as it was. A property without
    a setter cannot be set; the three data views have a setter, which
    raises. *)
Definition setattr (name : string) (v : value) (self : Context) : M Context :=
  match classify name with
  | Property P_bot_data => _ ← bot_data_setter self v; mret self
  | Property P_chat_data => _ ← chat_data_setter self v; mret self
  | Property P_user_data => _ ← user_data_setter self v; mret self
  | Property _ => throw AttributeError "can't set attribute"
  | Slot s => mret (set_slot s v self)
  | Special_dict =>
      match v with
      | VDict l => mret (set___dict__ l self)
      | _ => throw TypeError "__dict__ must be set to a dictionary"
      end
  | Special_class => throw TypeError "__class__ must be set to a class"
  | Plain =>
      λ w, (Return self,
            set_heap (dict_setitem (__dict__ self) (KStr name) v (heap w)) w)
  end.

(** [getattr(self, name)]. *)
Definition getattr (name : string) (self : Context) (w : World) : outcome value :=
  match classify name with
  | Property P_dispatcher => dispatcher self
  | Property P_bot_data => bot_data self
  | Property P_chat_data => chat_data self w
  | Property P_user_data => user_data self w
  | Property P_bot => bot self
  | Property P_job_queue => job_queue self
  | Property P_update_queue => update_queue self
  | Property P_match => match_ self w
  | Slot s => Return (get_slot s self)
  | Special_dict => Return (VDict (__dict__ self))
  | Special_class => Return (VObj "CallbackContext")
  | Plain =>
      match heap_dict (heap w) (__dict__ self) !! KStr name with
      | Some v => Return v
      | None =>
          if bool_decide (name ∈ class_attributes) then Return (VObj name)
          else raise AttributeError "object has no such attribute"
      end
  end.

(** [update(self, data)]: the loop over [data.items()], given as the list of
    the dict's items in iteration order. The instance and the world are
    returned as they are when the loop ends or raises. *)
Fixpoint update (data : list (string * value)) (self : Context) (w : World)
  : outcome unit * (Context * World) :=
  match data with
  | [] => (Return tt, (self, w))
  | (key, value) :: rest =>
      match setattr key value self w with
      | (Return self', w') => update rest self' w'
      | (Raise e, w') => (Raise e, (self, w'))
      end
  end.

(** *** Constructors *)

(** [from_update(cls, update, dispatcher)]. *)
Definition from_update (update : value) (dispatcher : Dispatcher) : M Context :=
  self ← __init__ dispatcher;
  match update with
  | VUpdate u =>
      let chat := effective_chat u in
      let user := effective_user u in
      self ← match chat with
             | Some chat =>
                 data ← store_getitem ChatStore (d_chat_data dispatcher) (chat_id chat);
                 mret (set__chat_id_and_data
                         (VTuple [VInt (chat_id chat); VDict data]) self)
             | None => mret self
             end;
      self ← match user with
             | Some user =>
                 data ← store_getitem UserStore (d_user_data dispatcher) (user_id user);
                 mret (set__user_id_and_data
                         (VTuple [VInt (user_id user); VDict data]) self)
             | None => mret self
             end;
      mret self
  | _ => mret self
  end.

(** [from_error(cls, update, error, dispatcher, async_args, async_kwargs, job)]. *)
Definition from_error (update : value) (error : value) (dispatcher : Dispatcher)
    (async_args async_kwargs job : value) : M Context :=
  self ← from_update update dispatcher;
  let self := set_error error self in
  let self := set_async_args async_args self in
  let self := set_async_kwargs async_kwargs self in
  let self := set_job job self in
  mret self.

(** [from_job(cls, job, dispatcher)]. *)
Definition from_job (job : value) (dispatcher : Dispatcher) : M Context :=
  self ← __init__ dispatcher;
  mret (set_job job self).

(** *** Callback-data cache *)

(** [callback_data_cache.drop_data(callback_query)], with the access
    recorded. *)
Definition cache_drop_data (q : CallbackQuery) : M unit :=
  λ w, let '(r, c) := drop_data q (cache w) in
       (r, record (CacheDrop (cq_id q)) (set_cache c w)).

(** [drop_callback_data(self, callback_query)]. *)
Definition drop_callback_data (self : Context) (callback_query : CallbackQuery)
  : M unit :=
  b ← reading (λ _, bot self);
  match b with
  | VBot (ExtBot arbitrary_callback_data) =>
      if negb arbitrary_callback_data
      then throw RuntimeError
             "This telegram.ext.ExtBot instance does not use arbitrary callback data."
      else cache_drop_data callback_query
  | _ => throw RuntimeError "telegram.Bot does not allow for arbitrary callback data."
  end.

End CallbackContext.

(** ** The [httpx] client, as far as the transport relies on it

    [httpx] is a third-party library. What is modelled here is the part of
    its interface the transport uses: timeout objects (mutable, so kept on a
    heap and referred to by location), the client's open/closed state, and
    one request whose network result is given by the environment. *)

Module Httpx.
Import Py.

(** Seconds; [None] is an infinite timeout. *)
Record Timeout := mk_Timeout {
  connect : option Q;
  read : option Q;
  write : option Q;
  pool : option Q
}.

Record Limits := mk_Limits {
  max_connections : Z;
  max_keepalive_connections : Z
}.

Inductive ClientState := UNOPENED | OPENED | CLOSED.

(** The client holds its own timeout object. *)
Record AsyncClient := mk_AsyncClient {
  timeout : loc;
  proxies : option string;
  limits : Limits;
  state : ClientState
}.

(** The keyword arguments of one [client.request(...)], with the timeout
    object read at the time of the call. *)
Record Request := mk_Request {
  r_method : string;
  r_url : string;
  r_headers : list (string * string);
  r_timeout : Timeout;
  r_files : option (list (string * string));
  r_data : option (list (string * string))
}.

Record Response := mk_Response {
  status_code : Z;
  content : list Byte.byte
}.

(** What the network answers to a request: a response, or an exception of
    the client library. *)
Definition Network := Request → outcome Response.

Abbreviation timeouts := (gmap loc Timeout).

Definition timeout_at (h : timeouts) (l : loc) : Timeout :=
  default (mk_Timeout None None None None) (h !! l).

(** [httpx.Timeout(connect=.., read=.., write=.., pool=..)]: a new object. *)
Definition new_Timeout (t : Timeout) (h : timeouts) : loc * timeouts :=
  let l := fresh (dom h) in (l, <[l := t]> h).

(** Attribute assignments on a timeout object. *)
Definition assign_connect (l : loc) (v : option Q) (h : timeouts) : timeouts :=
  let t := timeout_at h l in <[l := mk_Timeout v (read t) (write t) (pool t)]> h.
Definition assign_read (l : loc) (v : option Q) (h : timeouts) : timeouts :=
  let t := timeout_at h l in <[l := mk_Timeout (connect t) v (write t) (pool t)]> h.
Definition assign_write (l : loc) (v : option Q) (h : timeouts) : timeouts :=
  let t := timeout_at h l in <[l := mk_Timeout (connect t) (read t) v (pool t)]> h.
Definition assign_pool (l : loc) (v : option Q) (h : timeouts) : timeouts :=
  let t := timeout_at h l in <[l := mk_Timeout (connect t) (read t) (write t) v]> h.

(** [httpx.AsyncClient(timeout=.., proxies=.., limits=..)]: the client keeps
    a timeout object of its own, copied from the one it is given. *)
Definition new_AsyncClient (timeout : loc) (proxies : option string)
    (limits : Limits) (h : timeouts) : AsyncClient * timeouts :=
  let '(own, h) := new_Timeout (timeout_at h timeout) h in
  (mk_AsyncClient own proxies limits UNOPENED, h).

(** [client.aclose()]. *)
Definition aclose (c : AsyncClient) : AsyncClient :=
  mk_AsyncClient (timeout c) (proxies c) (limits c) CLOSED.

(** Modelled from the spec: the pooled client is a third-party library and
    not among the sources. A request "issued after stop() must fail, not hang
    or silently succeed": a closed client refuses to send, which [httpx] does
    by raising [RuntimeError]; otherwise the client is open from now on and
    the network decides. *)
Definition request (net : Network) (c : AsyncClient) (method url : string)
    (headers : list (string * string)) (timeout : loc)
    (files data : option (list (string * string))) (h : timeouts)
  : outcome Response * AsyncClient :=
  match state c with
  | CLOSED =>
      (raise RuntimeError "Cannot send a request, as the client has been closed.", c)
  | _ =>
      (net (mk_Request method url headers (timeout_at h timeout) files data),
       mk_AsyncClient (Httpx.timeout c) (proxies c) (limits c) OPENED)
  end.

End Httpx.

(** ** [telegram/request/_httpxrequest.py] *)

Module HTTPXRequest.
Import Py.

(** Modelled from the spec: [telegram.request.RequestData] is not among the
    sources; a payload is "form fields plus optional file attachments". *)
Record RequestData := mk_RequestData {
  multipart_data : list (string * string);
  json_parameters : list (string * string)
}.

(** The instance. [USER_AGENT] is a constant of the base class
    [BaseRequest], which is not among the sources; it is read through
    [self]. *)
Record Self := mk_Self {
  _client : Httpx.AsyncClient;
  _connection_pool_size : Z;
  USER_AGENT : string
}.

Definition set__client (c : Httpx.AsyncClient) (self : Self) : Self :=
  mk_Self c (_connection_pool_size self) (USER_AGENT self).

(** [__init__]. The defaults of the signature are [connection_pool_size=1],
    [proxy_url=None], [5.0] for connect, read and write, [1.0] for pool. *)
Definition __init__ (user_agent : string) (connection_pool_size : Z)
    (proxy_url : option string)
    (connect_timeout read_timeout write_timeout pool_timeout : option Q)
    (h : Httpx.timeouts) : Self * Httpx.timeouts :=
  let '(timeout, h) :=
    Httpx.new_Timeout
      (Httpx.mk_Timeout connect_timeout read_timeout write_timeout pool_timeout) h in
  let limits := Httpx.mk_Limits connection_pool_size connection_pool_size in
  let '(client, h) := Httpx.new_AsyncClient timeout proxy_url limits h in
  (mk_Self client connection_pool_size user_agent, h).

Definition default_connect_timeout : option Q := Some (5 # 1)%Q.
Definition default_read_timeout : option Q := Some (5 # 1)%Q.
Definition default_write_timeout : option Q := Some (5 # 1)%Q.
Definition default_pool_timeout : option Q := Some (1 # 1)%Q.

Definition connection_pool_size (self : Self) : Z := _connection_pool_size self.

(** [initialize] has an empty body. *)
Definition initialize (self : Self) : Self := self.

(** [stop]. *)
Definition stop (self : Self) : Self :=
  set__client (Httpx.aclose (_client self)) self.

(** Lines 126-139 of [do_request]: the timeout object of this call. A
    keyword left at [None] is not an override. *)
Definition call_timeout (self : Self)
    (connect_timeout read_timeout write_timeout pool_timeout : option Q)
    (h : Httpx.timeouts) : loc * Httpx.timeouts :=
  let shared := Httpx.timeout_at h (Httpx.timeout (_client self)) in
  let '(timeout, h) :=
    Httpx.new_Timeout
      (Httpx.mk_Timeout (Httpx.connect shared) (Httpx.read shared)
                        (Httpx.write shared) (Httpx.pool shared)) h in
  let h := match read_timeout with
           | Some _ => Httpx.assign_read timeout read_timeout h
           | None => h
           end in
  let h := match write_timeout with
           | Some _ => Httpx.assign_write timeout write_timeout h
           | None => h
           end in
  let h := match connect_timeout with
           | Some _ => Httpx.assign_connect timeout connect_timeout h
           | None => h
           end in
  let h := match pool_timeout with
           | Some _ => Httpx.assign_pool timeout pool_timeout h
           | None => h
           end in
  (timeout, h).

(** [do_request]. The result is the returned pair or the raised fault, with
    the instance and the timeout objects as the call leaves them. *)
Definition do_request (net : Httpx.Network) (self : Self) (method url : string)
    (request_data : option RequestData)
    (connect_timeout read_timeout write_timeout pool_timeout : option Q)
    (h : Httpx.timeouts)
  : outcome (Z * list Byte.byte) * (Self * Httpx.timeouts) :=
  let '(timeout, h) :=
    call_timeout self connect_timeout read_timeout write_timeout pool_timeout h in
  let files := match request_data with
               | Some rd => Some (multipart_data rd)
               | None => None
               end in
  let data := match request_data with
              | Some rd => Some (json_parameters rd)
              | None => None
              end in
  let '(res, client) :=
    Httpx.request net (_client self) method url
      [("User-Agent", USER_AGENT self)] timeout files data h in
  let self := set__client client self in
  match res with
  | Return res => (Return (Httpx.status_code res, Httpx.content res), (self, h))
  | Raise err =>
      if isinstance err TimeoutException
      then (raise TimedOut "Timed out", (self, h))
      else if isinstance err HTTPError
      then (raise NetworkError ("httpx HTTPError: " ++ exn_msg err), (self, h))
      else (Raise err, (self, h))
  end.

(** The request the client is asked to send by a call: what [do_request]
    hands to [client.request]. *)
Definition outgoing (self : Self) (method url : string)
    (request_data : option RequestData)
    (connect_timeout read_timeout write_timeout pool_timeout : option Q)
    (h : Httpx.timeouts) : Httpx.Request :=
  let '(timeout, h) :=
    call_timeout self connect_timeout read_timeout write_timeout pool_timeout h in
  Httpx.mk_Request method url [("User-Agent", USER_AGENT self)]
    (Httpx.timeout_at h timeout)
    (match request_data with Some rd => Some (multipart_data rd) | None => None end)
    (match request_data with Some rd => Some (json_parameters rd) | None => None end).

End HTTPXRequest.

(** * Vocabulary of the specification *)

Import Py.

Module TransportSpec.
Import HTTPXRequest.

(** One dimension of the effective timeout, in the specification's words:
    the override when one was supplied, the default otherwise. *)
Definition effective (override default : option Q) : option Q :=
  match override with
  | Some x => Some x
  | None => default
  end.

Definition effective_timeout (connect_timeout read_timeout write_timeout
    pool_timeout : option Q) (defaults : Httpx.Timeout) : Httpx.Timeout :=
  Httpx.mk_Timeout
    (effective connect_timeout (Httpx.connect defaults))
    (effective read_timeout (Httpx.read defaults))
    (effective write_timeout (Httpx.write defaults))
    (effective pool_timeout (Httpx.pool defaults)).

(** How the answer of the client becomes the result of [do_request]. *)
Definition surfaced (r : outcome Httpx.Response) : outcome (Z * list Byte.byte) :=
  match r with
  | Return res => Return (Httpx.status_code res, Httpx.content res)
  | Raise err =>
      if isinstance err TimeoutException then raise TimedOut "Timed out"
      else if isinstance err HTTPError
      then raise NetworkError ("httpx HTTPError: " ++ exn_msg err)
      else Raise err
  end.

(** What the underlying client answers to the call: the first component of
    [client.request(...)] as [do_request] issues it. *)
Definition client_answer (net : Httpx.Network) (self : Self) (m u : string)
    (rd : option RequestData) (ct rt wt pt : option Q)
    (h : gmap loc Httpx.Timeout) : outcome Httpx.Response :=
  let '(timeout, h') := call_timeout self ct rt wt pt h in
  (Httpx.request net (_client self) m u [("User-Agent", USER_AGENT self)] timeout
     (match rd with Some rd => Some (multipart_data rd) | None => None end)
     (match rd with Some rd => Some (json_parameters rd) | None => None end)
     h').1.

(** The arguments of one call, to speak of several calls in a row. *)
Record Call := mk_Call {
  c_method : string;
  c_url : string;
  c_request_data : option RequestData;
  c_connect_timeout : option Q;
  c_read_timeout : option Q;
  c_write_timeout : option Q;
  c_pool_timeout : option Q
}.

Definition do_call (net : Httpx.Network) (self : Self) (c : Call)
    (h : gmap loc Httpx.Timeout) :=
  do_request net self (c_method c) (c_url c) (c_request_data c)
    (c_connect_timeout c) (c_read_timeout c) (c_write_timeout c)
    (c_pool_timeout c) h.

(** Calls issued one after the other on the same instance; the results are
    listed in order. *)
Fixpoint do_requests (net : Httpx.Network) (self : Self) (cs : list Call)
    (h : gmap loc Httpx.Timeout) : list (outcome (Z * list Byte.byte)) :=
  match cs with
  | [] => []
  | c :: cs' =>
      let '(r, (self', h')) := do_call net self c h in
      r :: do_requests net self' cs' h'
  end.

Definition failed {A} (o : outcome A) : Prop := ∃ e, o = Raise e.

(** The claim that only the two transport faults ever reach the caller, as
    the specification words it: whatever the state of the client, a call of
    [do_request] that raises, raises [TimedOut] or [NetworkError]. *)
Definition only_taxonomy_faults : Prop :=
  ∀ net self m u rd ct rt wt pt (h : gmap loc Httpx.Timeout) e,
    (do_request net self m u rd ct rt wt pt h).1 = Raise e →
    isinstance e TimedOut = true ∨ isinstance e NetworkError = true.

(** A transport built with the defaults of the constructor, and three
    networks: one that answers, one on which reads time out, one that
    refuses the connection. *)
Definition default_instance : Self * gmap loc Httpx.Timeout :=
  __init__ "python-telegram-bot" 1 None default_connect_timeout
    default_read_timeout default_write_timeout default_pool_timeout ∅.

Definition net_ok : Httpx.Network :=
  λ _, Return (Httpx.mk_Response 200 []).

Definition net_read_timeout : Httpx.Network :=
  λ _, Raise (mk_exn ReadTimeout "read timed out").

Definition net_connect_error : Httpx.Network :=
  λ _, Raise (mk_exn ConnectError "connection refused").

End TransportSpec.

Module ContextSpec.
Import CallbackContext.

(** The claim that [update] sets every pair of the mapping, in its weakest
    reading: after the call, each key of the mapping reads as its value. The
    mapping is given by its items, whose keys are distinct. *)
Definition update_sets_every_key : Prop :=
  ∀ (data : list (string * value)) self w,
    NoDup data.*1 →
    ∀ k v, (k, v) ∈ data →
      getattr k (update data self w).2.1 (update data self w).2.2 = Return v.

(** The names [update] can set: a slot, or a name the class does not
    declare. *)
Definition settable (name : string) : Prop :=
  match classify name with
  | Slot _ | Plain => True
  | _ => False
  end.

(** What a data view shows for an optional id: the dict the store holds
    under that id. *)
Definition stored (store : gmap Z loc) (id : option Z) : value :=
  match id with
  | Some i => match store !! i with
              | Some l => VDict l
              | None => VNone
              end
  | None => VNone
  end.

(** [d[k] = v] through a data view. *)
Definition mutate (l : loc) (k : key) (v : value) (w : World) : World :=
  set_heap (dict_setitem l k v (heap w)) w.

(** A dispatcher with one chat and one user, a world holding their dicts,
    a cache that knows one callback query, and an update from that chat and
    user. *)
Definition example_dispatcher : Dispatcher :=
  mk_Dispatcher (ExtBot true) 1%positive {[ 42 := 2%positive ]}
    {[ 7 := 3%positive ]} "job_queue" "update_queue".

Definition example_world : World :=
  mk_World {[ 1%positive := ∅; 2%positive := ∅; 3%positive := ∅ ]}
    (mk_Cache {[ "query-1" := "keyboard-1" ]} ∅) [].

Definition example_update : Update :=
  mk_Update (Some (mk_Chat 42)) (Some (mk_User 7)).

Definition example_context : Context :=
  match from_update (VUpdate example_update) example_dispatcher example_world with
  | (Return self, _) => self
  | (Raise _, _) => set___dict__ 1%positive
                      (mk_Context VNone VNone VNone VNone VNone VNone VNone VNone
                         VNone 1%positive)
  end.

End ContextSpec.

(** * The rest of the two files *)

(** ** [refresh_data] and the persistence collaborator *)

Module Persistence.
Import CallbackContext.

(** Modelled from the spec: [telegram.ext.BasePersistence] is not among the
    sources. It "exposes refresh_bot_data(data), refresh_chat_data(chat_id,
    data), refresh_user_data(user_id, data), and flags indicating which data
    kinds it persists". What its methods do is theirs to decide: each is any
    computation over the world, which may change dicts and may raise. The
    two keyed methods are called as [f( *x )]; they are given [x], the value
    that is unpacked. *)
Record PersistenceInput := mk_PersistenceInput {
  sd_bot_data : bool;
  sd_chat_data : bool;
  sd_user_data : bool
}.

Record BasePersistence := mk_BasePersistence {
  store_data : PersistenceInput;
  refresh_bot_data : value → M unit;
  refresh_chat_data : value → M unit;
  refresh_user_data : value → M unit
}.

(** [x is not None]. *)
Definition is_not_None (x : value) : bool :=
  match x with
  | VNone => false
  | _ => true
  end.

Section RefreshData.

(** The [persistence] attribute of a dispatcher, [None] when the dispatcher
    has no persistence. *)
Variable persistence_of : Dispatcher → option BasePersistence.

(** [self.dispatcher.persistence]. *)
Definition persistence (self : Context) : outcome (option BasePersistence) :=
  match dispatcher self with
  | Return (VDispatcher d) => Return (persistence_of d)
  | Return _ => raise AttributeError "object has no such attribute"
  | Raise e => Raise e
  end.

(** [refresh_data(self)]. *)
Definition refresh_data (self : Context) : M unit :=
  p ← reading (λ _, persistence self);
  match p with
  | Some p =>
      _ ← (if sd_bot_data (store_data p)
           then data ← reading (λ _, bot_data self); refresh_bot_data p data
           else mret tt);
      _ ← (if sd_chat_data (store_data p) && is_not_None (_chat_id_and_data self)
           then refresh_chat_data p (_chat_id_and_data self)
           else mret tt);
      _ ← (if sd_user_data (store_data p) && is_not_None (_user_id_and_data self)
           then refresh_user_data p (_user_id_and_data self)
           else mret tt);
      mret tt
  | None => mret tt
  end.

End RefreshData.

(** A persistence that writes a marker into every dict it is asked to
    refresh, and one whose bot-data refresh raises. *)
Definition mark (x : value) : M unit :=
  λ w, match x with
       | VDict l => (Return tt, set_heap (dict_setitem l (KStr "refreshed") (VBool true) (heap w)) w)
       | VTuple [_; VDict l] =>
           (Return tt, set_heap (dict_setitem l (KStr "refreshed") (VBool true) (heap w)) w)
       | _ => (raise TypeError "unexpected arguments", w)
       end.

Definition marking_persistence : BasePersistence :=
  mk_BasePersistence (mk_PersistenceInput true true true) mark mark mark.

Definition failing_persistence : BasePersistence :=
  mk_BasePersistence (mk_PersistenceInput true true true)
    (λ _, throw RuntimeError "storage unavailable") mark mark.

End Persistence.

(** ** The life of a transport instance *)

Module Lifecycle.
Import HTTPXRequest TransportSpec.

(** What can be done with an instance once it is built. *)
Inductive Op :=
  | OpInitialize
  | OpStop
  | OpRequest (net : Httpx.Network) (c : Call).

Definition step (s : Self * gmap loc Httpx.Timeout) (op : Op)
  : Self * gmap loc Httpx.Timeout :=
  match op with
  | OpInitialize => (initialize s.1, s.2)
  | OpStop => (stop s.1, s.2)
  | OpRequest net c => (do_call net s.1 c s.2).2
  end.

Definition run (ops : list Op) (s : Self * gmap loc Httpx.Timeout)
  : Self * gmap loc Httpx.Timeout :=
  fold_left step ops s.

(** What every operation keeps: the client's timeout object and its
    contents, the pool size, the limits, the proxy and the user agent. *)
Definition settings (s : Self * gmap loc Httpx.Timeout) :=
  (s.2 !! Httpx.timeout (_client s.1),
   _connection_pool_size s.1,
   Httpx.limits (_client s.1),
   Httpx.proxies (_client s.1),
   USER_AGENT s.1).

End Lifecycle.

(** ** Vocabulary for the constructors *)

Module ConstructorSpec.
Import CallbackContext.

(** The store lookups an update asks for: its chat, then its user. *)
Definition store_gets (u : Update) : list Event :=
  (match effective_chat u with
   | Some chat => [StoreGet ChatStore (chat_id chat)]
   | None => []
   end ++
   match effective_user u with
   | Some user => [StoreGet UserStore (user_id user)]
   | None => []
   end)%list.

(** The three private slots that carry the dispatcher and the bindings. *)
Definition private_slots : list string :=
  ["_dispatcher"; "_chat_id_and_data"; "_user_id_and_data"].


End ConstructorSpec.

(** ** Vocabulary for [match] *)

Module MatchSpec.
Import CallbackContext.

(** The claim that [match] never faults, whatever the [matches] field
    holds. *)
Definition match_never_faults : Prop :=
  ∀ (self : Context) (w : World), ∃ v, match_ self w = Return v.

End MatchSpec.

(** * Properties *)

(** ** Exception hierarchy *)

(** Every timeout of the client is also an [HTTPError]: an [except
    HTTPError] clause placed first would take the timeouts too. *)
Lemma timeout_is_http_error (e : exn) :
  isinstance e TimeoutException = true → isinstance e HTTPError = true.
Proof.
  destruct e as [c msg]. unfold isinstance. simpl.
  destruct c; vm_compute; congruence.
Qed.

Lemma taxonomy_not_http_error (e : exn) :
  exn_cls e = TimedOut ∨ exn_cls e = NetworkError →
  isinstance e HTTPError = false.
Proof.
  destruct e as [c msg]. unfold isinstance. simpl.
  intros [-> | ->]; reflexivity.
Qed.

(** ** Pooled transport *)

Section Transport.
Import HTTPXRequest TransportSpec.

(** The timeout object of a call is a new object holding the merge. *)
Lemma call_timeout_eq self ct rt wt pt (h : gmap loc Httpx.Timeout) :
  call_timeout self ct rt wt pt h
  = (fresh (dom h),
     <[fresh (dom h) :=
         effective_timeout ct rt wt pt
           (Httpx.timeout_at h (Httpx.timeout (_client self)))]> h).
Proof.
  unfold call_timeout, Httpx.new_Timeout.
  set (l := fresh (dom h)).
  destruct (Httpx.timeout_at h (Httpx.timeout (_client self))) as [c r w p].
  unfold effective_timeout; simpl.
  destruct rt, wt, ct, pt; simpl;
    unfold Httpx.assign_read, Httpx.assign_write, Httpx.assign_connect,
      Httpx.assign_pool, Httpx.timeout_at;
    repeat (rewrite ?lookup_insert_eq, ?insert_insert_eq; simpl);
    reflexivity.
Qed.

Lemma fresh_loc_ne (h : gmap loc Httpx.Timeout) (l : loc) t :
  h !! l = Some t → fresh (dom h) ≠ l.
Proof.
  intros Hl Heq. apply (is_fresh (dom h)). rewrite Heq.
  apply elem_of_dom. eauto.
Qed.

Lemma outgoing_timeout self m u rd ct rt wt pt (h : gmap loc Httpx.Timeout) :
  Httpx.r_timeout (outgoing self m u rd ct rt wt pt h)
  = effective_timeout ct rt wt pt
      (Httpx.timeout_at h (Httpx.timeout (_client self))).
Proof.
  unfold outgoing. rewrite call_timeout_eq. simpl.
  unfold Httpx.timeout_at at 1. by rewrite lookup_insert_eq.
Qed.

Lemma do_request_open net self m u rd ct rt wt pt (h : gmap loc Httpx.Timeout) :
  Httpx.state (_client self) ≠ Httpx.CLOSED →
  (do_request net self m u rd ct rt wt pt h).1
  = surfaced (net (outgoing self m u rd ct rt wt pt h)).
Proof.
  intros Hopen. unfold do_request, outgoing.
  rewrite call_timeout_eq. unfold Httpx.request.
  destruct (Httpx.state (_client self)); try congruence;
    (destruct (net _) as [res | err]; simpl; [reflexivity |];
     destruct (isinstance err TimeoutException); [reflexivity |];
     destruct (isinstance err HTTPError); reflexivity).
Qed.

Lemma do_request_closed net self m u rd ct rt wt pt (h : gmap loc Httpx.Timeout) :
  Httpx.state (_client self) = Httpx.CLOSED →
  (do_request net self m u rd ct rt wt pt h).1
  = raise RuntimeError "Cannot send a request, as the client has been closed."
  ∧ Httpx.state (_client (do_request net self m u rd ct rt wt pt h).2.1)
    = Httpx.CLOSED.
Proof.
  intros Hc. unfold do_request. rewrite call_timeout_eq.
  unfold Httpx.request. rewrite Hc. simpl. destruct self as [[? ? ? ?] ? ?].
  simpl in *. by subst.
Qed.

(** The instance's own timeout object is the same object, with the same
    contents, after a call. *)
Lemma do_request_keeps_shared net self m u rd ct rt wt pt
    (h : gmap loc Httpx.Timeout) shared :
  h !! Httpx.timeout (_client self) = Some shared →
  let after := (do_request net self m u rd ct rt wt pt h).2 in
  Httpx.timeout (_client after.1) = Httpx.timeout (_client self)
  ∧ after.2 !! Httpx.timeout (_client self) = Some shared.
Proof.
  intros Hs. unfold do_request. rewrite call_timeout_eq.
  pose proof (fresh_loc_ne h _ _ Hs) as Hne.
  unfold Httpx.request.
  destruct (Httpx.state (_client self)); simpl;
    try (destruct (net _) as [res | err]; simpl;
         [| destruct (isinstance err TimeoutException);
            [| destruct (isinstance err HTTPError)]]);
    simpl; rewrite ?lookup_insert_ne by done; done.
Qed.

Lemma client_answer_open net self m u rd ct rt wt pt (h : gmap loc Httpx.Timeout) :
  Httpx.state (_client self) ≠ Httpx.CLOSED →
  client_answer net self m u rd ct rt wt pt h
  = net (outgoing self m u rd ct rt wt pt h).
Proof.
  intros Hopen. unfold client_answer, outgoing. rewrite call_timeout_eq.
  unfold Httpx.request. by destruct (Httpx.state (_client self)).
Qed.

Lemma do_request_surfaces net self m u rd ct rt wt pt (h : gmap loc Httpx.Timeout) :
  (do_request net self m u rd ct rt wt pt h).1
  = surfaced (client_answer net self m u rd ct rt wt pt h).
Proof.
  unfold do_request, client_answer. rewrite call_timeout_eq.
  destruct (Httpx.request _ _ _ _ _ _ _ _ _) as [[res | err] client]; simpl;
    [reflexivity |].
  destruct (isinstance err TimeoutException); [reflexivity |].
  destruct (isinstance err HTTPError); reflexivity.
Qed.

Lemma closed_requests_fail net (cs : list Call) :
  ∀ self (h : gmap loc Httpx.Timeout),
    Httpx.state (_client self) = Httpx.CLOSED →
    Forall failed (do_requests net self cs h).
Proof.
  induction cs as [| c cs IH]; intros self h Hc; simpl; [constructor |].
  pose proof (do_request_closed net self (c_method c) (c_url c)
                (c_request_data c) (c_connect_timeout c) (c_read_timeout c)
                (c_write_timeout c) (c_pool_timeout c) h Hc) as [Hr Hs].
  unfold do_call. destruct (do_request _ _ _ _ _ _ _ _ _ _) as [r [self' h']].
  simpl in *. constructor.
  - subst r. eexists. reflexivity.
  - by apply IH.
Qed.

Lemma do_request_timeouts net self m u rd ct rt wt pt (h : gmap loc Httpx.Timeout) :
  (do_request net self m u rd ct rt wt pt h).2.2
  = (call_timeout self ct rt wt pt h).2.
Proof.
  unfold do_request. destruct (call_timeout self ct rt wt pt h) as [l h'].
  destruct (Httpx.request _ _ _ _ _ _ _ _ _) as [[res | err] client]; simpl;
    [reflexivity |].
  destruct (isinstance err TimeoutException); [reflexivity |].
  destruct (isinstance err HTTPError); reflexivity.
Qed.

(** C2. The request handed to the client carries, in each of the four
    dimensions, the caller's override when one was supplied and the
    instance's default otherwise. The merge is written into a timeout object
    made for this call: its location is not one of the objects that existed
    before the call, it is not the instance's own, it holds what is sent,
    and every object that existed is left as it was. The instance keeps the
    same timeout object with the same contents, so whatever call follows,
    with whatever overrides, is merged against the unmodified defaults. *)
Theorem C2_effective_timeout_is_call_local
    net self m u rd ct rt wt pt (h : gmap loc Httpx.Timeout) defaults :
  h !! Httpx.timeout (_client self) = Some defaults →
  let sent := outgoing self m u rd ct rt wt pt h in
  let result := do_request net self m u rd ct rt wt pt h in
  let local := (call_timeout self ct rt wt pt h).1 in
  Httpx.connect (Httpx.r_timeout sent) = effective ct (Httpx.connect defaults)
  ∧ Httpx.read (Httpx.r_timeout sent) = effective rt (Httpx.read defaults)
  ∧ Httpx.write (Httpx.r_timeout sent) = effective wt (Httpx.write defaults)
  ∧ Httpx.pool (Httpx.r_timeout sent) = effective pt (Httpx.pool defaults)
  ∧ client_answer net self m u rd ct rt wt pt h
    = match Httpx.state (_client self) with
      | Httpx.CLOSED =>
          raise RuntimeError "Cannot send a request, as the client has been closed."
      | _ => net sent
      end
  ∧ result.1 = surfaced (client_answer net self m u rd ct rt wt pt h)
  ∧ Httpx.timeout (_client result.2.1) = Httpx.timeout (_client self)
  ∧ result.2.2 !! Httpx.timeout (_client self) = Some defaults
  ∧ (∀ m' u' rd' ct' rt' wt' pt',
      Httpx.r_timeout (outgoing result.2.1 m' u' rd' ct' rt' wt' pt' result.2.2)
      = effective_timeout ct' rt' wt' pt' defaults)
  ∧ (local ∉ dom h)
  ∧ local ≠ Httpx.timeout (_client self)
  ∧ result.2.2 !! local = Some (Httpx.r_timeout sent)
  ∧ h ⊆ result.2.2
  ∧ dom result.2.2 = {[local]} ∪ dom h.
Proof.
  intros Hd sent result local.
  assert (Hat : Httpx.timeout_at h (Httpx.timeout (_client self)) = defaults).
  { unfold Httpx.timeout_at. by rewrite Hd. }
  pose proof (do_request_keeps_shared net self m u rd ct rt wt pt h defaults Hd)
    as [Hsame Hkept].
  fold result in Hsame, Hkept.
  assert (Hs : Httpx.r_timeout sent = effective_timeout ct rt wt pt defaults).
  { unfold sent. by rewrite outgoing_timeout, Hat. }
  assert (Hlocal : local = fresh (dom h)).
  { unfold local. by rewrite call_timeout_eq. }
  assert (Hafter : result.2.2
                   = <[fresh (dom h) := effective_timeout ct rt wt pt defaults]> h).
  { unfold result. by rewrite do_request_timeouts, call_timeout_eq, Hat. }
  assert (Hnew : h !! fresh (dom h) = None).
  { apply not_elem_of_dom. apply is_fresh. }
  split; [by rewrite Hs |]. split; [by rewrite Hs |].
  split; [by rewrite Hs |]. split; [by rewrite Hs |].
  split.
  { unfold client_answer, sent, outgoing. rewrite call_timeout_eq.
    unfold Httpx.request. by destruct (Httpx.state (_client self)). }
  split; [apply do_request_surfaces |].
  split; [exact Hsame |]. split; [exact Hkept |].
  split.
  { intros. rewrite outgoing_timeout, Hsame.
    unfold Httpx.timeout_at. by rewrite Hkept. }
  rewrite Hlocal, Hafter, Hs.
  split; [apply is_fresh |].
  split; [by eapply fresh_loc_ne |].
  split; [apply lookup_insert_eq |].
  split; [by apply insert_subseteq |].
  apply dom_insert_L.
Qed.

Lemma C2_witness :
  default_instance.2 !! Httpx.timeout (_client default_instance.1)
  = Some (Httpx.mk_Timeout (Some (5 # 1)%Q) (Some (5 # 1)%Q)
            (Some (5 # 1)%Q) (Some (1 # 1)%Q))
  ∧ Httpx.read (Httpx.r_timeout
      (outgoing default_instance.1 "POST" "https://api.telegram.org/getMe"
         None None (Some (2 # 1)%Q) None None default_instance.2))
    = Some (2 # 1)%Q.
Proof.
  assert (H : default_instance.2 !! Httpx.timeout (_client default_instance.1)
              = Some (Httpx.mk_Timeout (Some (5 # 1)%Q) (Some (5 # 1)%Q)
                        (Some (5 # 1)%Q) (Some (1 # 1)%Q))).
  { vm_compute. reflexivity. }
  split; [exact H |].
  exact (proj1 (proj2 (C2_effective_timeout_is_call_local net_ok
           default_instance.1 "POST" "https://api.telegram.org/getMe"
           None None (Some (2 # 1)%Q) None None default_instance.2 _ H))).
Defined.

(** C3. When the underlying client raises a timeout-class exception,
    [do_request] raises [TimedOut], not [NetworkError], although such an
    exception is an [HTTPError] as well: the timeout clause comes first.
    Any other exception of the [HTTPError] hierarchy, which holds the
    transport and protocol failures, is raised as [NetworkError]. *)
Theorem C3_timeout_before_network_error
    net self m u rd ct rt wt pt (h : gmap loc Httpx.Timeout) err :
  client_answer net self m u rd ct rt wt pt h = Raise err →
  let fault := raised_class (do_request net self m u rd ct rt wt pt h).1 in
  (isinstance err TimeoutException = true →
     isinstance err HTTPError = true
     ∧ fault = Some TimedOut ∧ fault ≠ Some NetworkError)
  ∧ (isinstance err TimeoutException = false →
     isinstance err HTTPError = true →
     fault = Some NetworkError).
Proof.
  intros Hans fault. unfold fault.
  rewrite do_request_surfaces, Hans. simpl. split.
  - intros Ht. rewrite Ht. simpl. split; [by apply timeout_is_http_error |].
    split; [reflexivity | discriminate].
  - intros Ht Hh. by rewrite Ht, Hh.
Qed.

Lemma C3_witness :
  (client_answer net_read_timeout default_instance.1 "POST" "getUpdates"
     None None None None None default_instance.2
   = Raise (mk_exn ReadTimeout "read timed out")
   ∧ raised_class
       (do_request net_read_timeout default_instance.1 "POST" "getUpdates"
          None None None None None default_instance.2).1
     = Some TimedOut)
  ∧ (client_answer net_connect_error default_instance.1 "POST" "getUpdates"
       None None None None None default_instance.2
     = Raise (mk_exn ConnectError "connection refused")
     ∧ raised_class
         (do_request net_connect_error default_instance.1 "POST" "getUpdates"
            None None None None None default_instance.2).1
       = Some NetworkError).
Proof.
  split.
  - assert (H : client_answer net_read_timeout default_instance.1 "POST"
                  "getUpdates" None None None None None default_instance.2
                = Raise (mk_exn ReadTimeout "read timed out")).
    { vm_compute. reflexivity. }
    split; [exact H |].
    exact (proj1 (proj2 (proj1 (C3_timeout_before_network_error _ _ _ _ _ _ _ _ _ _ _ H)
                           eq_refl))).
  - assert (H : client_answer net_connect_error default_instance.1 "POST"
                  "getUpdates" None None None None None default_instance.2
                = Raise (mk_exn ConnectError "connection refused")).
    { vm_compute. reflexivity. }
    split; [exact H |].
    exact (proj2 (C3_timeout_before_network_error _ _ _ _ _ _ _ _ _ _ _ H)
             eq_refl eq_refl).
Defined.

(** C4, as stated, fails: a transport that was stopped raises the
    [RuntimeError] of the closed client, which is neither of the two
    faults. *)
Lemma C4_counterexample : ¬ only_taxonomy_faults.
Proof.
  intros Hclaim.
  destruct (Hclaim net_ok (stop default_instance.1) "POST" "getMe" None
              None None None None default_instance.2
              (mk_exn RuntimeError
                 "Cannot send a request, as the client has been closed.")
              eq_refl) as [H | H]; vm_compute in H; discriminate.
Qed.

(** The two clauses do not take every exception of the client library: one
    that is not an [HTTPError], such as [InvalidURL], is not mapped. *)
Lemma invalid_url_is_not_mapped :
  (do_request (λ _, Raise (mk_exn InvalidURL "Invalid non-printable ASCII character in URL"))
     default_instance.1 "POST" "bad url" None None None None None
     default_instance.2).1
  = Raise (mk_exn InvalidURL "Invalid non-printable ASCII character in URL").
Proof. reflexivity. Qed.

(** C4, amended. A call that raises does so because the underlying client
    raised. When the client's exception belongs to the [HTTPError]
    hierarchy, the caller gets one of the two faults and which one is fixed:
    [TimedOut] for an exception of the timeout class, [NetworkError],
    carrying the client's message, for any other. *)
Theorem C4_http_errors_are_mapped
    net self m u rd ct rt wt pt (h : gmap loc Httpx.Timeout) e :
  (do_request net self m u rd ct rt wt pt h).1 = Raise e →
  ∃ err,
    client_answer net self m u rd ct rt wt pt h = Raise err
    ∧ (isinstance err TimeoutException = true →
       isinstance err HTTPError = true ∧ exn_cls e = TimedOut)
    ∧ (isinstance err TimeoutException = false →
       isinstance err HTTPError = true →
       e = mk_exn NetworkError ("httpx HTTPError: " ++ exn_msg err)).
Proof.
  rewrite do_request_surfaces.
  destruct (client_answer net self m u rd ct rt wt pt h) as [res | err];
    simpl; [discriminate |].
  intros He. exists err. split; [reflexivity |].
  destruct (isinstance err TimeoutException) eqn:Ht.
  - rewrite (timeout_is_http_error _ Ht). injection He as <-.
    split; [by split | discriminate].
  - destruct (isinstance err HTTPError) eqn:Hh.
    + injection He as <-. split; [discriminate | reflexivity].
    + split; discriminate.
Qed.

Lemma C4_witness :
  ((do_request net_connect_error default_instance.1 "POST" "getMe" None
      None None None None default_instance.2).1
   = Raise (mk_exn NetworkError "httpx HTTPError: connection refused")
   ∧ ∃ err,
       client_answer net_connect_error default_instance.1 "POST" "getMe" None
         None None None None default_instance.2 = Raise err
       ∧ isinstance err HTTPError = true)
  ∧ ((do_request net_read_timeout default_instance.1 "POST" "getMe" None
        None None None None default_instance.2).1
     = Raise (mk_exn TimedOut "Timed out")
     ∧ ∃ err,
         client_answer net_read_timeout default_instance.1 "POST" "getMe" None
           None None None None default_instance.2 = Raise err
         ∧ isinstance err TimeoutException = true).
Proof.
  split.
  - assert (H : (do_request net_connect_error default_instance.1 "POST" "getMe"
                   None None None None None default_instance.2).1
                = Raise (mk_exn NetworkError
                           "httpx HTTPError: connection refused")).
    { vm_compute. reflexivity. }
    split; [exact H |].
    destruct (C4_http_errors_are_mapped _ _ _ _ _ _ _ _ _ _ _ H)
      as (err & Hans & _ & _).
    exists err. split; [exact Hans |].
    revert Hans. vm_compute. by intros [= <-].
  - assert (H : (do_request net_read_timeout default_instance.1 "POST" "getMe"
                   None None None None None default_instance.2).1
                = Raise (mk_exn TimedOut "Timed out")).
    { vm_compute. reflexivity. }
    split; [exact H |].
    destruct (C4_http_errors_are_mapped _ _ _ _ _ _ _ _ _ _ _ H)
      as (err & Hans & _ & _).
    exists err. split; [exact Hans |].
    revert Hans. vm_compute. by intros [= <-].
Defined.

(** C9. Once [stop] has run, every later call of [do_request] raises,
    whatever its arguments, however many calls follow and whatever the
    network would have answered. Each call is a total function of its
    inputs, so none of them fails to come back. *)
Theorem C9_requests_after_stop_fail
    net self (cs : list Call) (h : gmap loc Httpx.Timeout) :
  Forall failed (do_requests net (stop self) cs h)
  ∧ length (do_requests net (stop self) cs h) = length cs.
Proof.
  split.
  - apply closed_requests_fail. reflexivity.
  - generalize (stop self) h. induction cs as [| c cs IH]; intros s h';
      simpl; [reflexivity |].
    unfold do_call. destruct (do_request _ _ _ _ _ _ _ _ _ _) as [r [s' h'']].
    simpl. by rewrite IH.
Qed.

End Transport.

(** ** Execution context *)

Section Context.
Import CallbackContext ContextSpec.

(** C1. Assigning to [bot_data], [chat_data] or [user_data] raises
    [AttributeError] for every context and every value, through the setter
    and through [setattr] alike, and leaves the context and the world, with
    every stored dict, as they were. *)
Theorem C1_data_views_reject_assignment (self : Context) (v : value) (w : World) :
  (raised_class (bot_data_setter self v w).1 = Some AttributeError
   ∧ (bot_data_setter self v w).2 = w
   ∧ raised_class (setattr "bot_data" v self w).1 = Some AttributeError
   ∧ (setattr "bot_data" v self w).2 = w
   ∧ (update [("bot_data", v)] self w).2 = (self, w))
  ∧ (raised_class (chat_data_setter self v w).1 = Some AttributeError
     ∧ (chat_data_setter self v w).2 = w
     ∧ raised_class (setattr "chat_data" v self w).1 = Some AttributeError
     ∧ (setattr "chat_data" v self w).2 = w
     ∧ (update [("chat_data", v)] self w).2 = (self, w))
  ∧ (raised_class (user_data_setter self v w).1 = Some AttributeError
     ∧ (user_data_setter self v w).2 = w
     ∧ raised_class (setattr "user_data" v self w).1 = Some AttributeError
     ∧ (setattr "user_data" v self w).2 = w
     ∧ (update [("user_data", v)] self w).2 = (self, w)).
Proof. repeat split. Qed.

(** C8, as stated, fails: [match] does fault for a state of the [matches]
    field. Only [IndexError] and [TypeError] are caught, and a dict without
    the key [0] answers [matches[0]] with [KeyError]. *)
Lemma C8_counterexample : ¬ MatchSpec.match_never_faults.
Proof.
  intros Hclaim.
  destruct (Hclaim (set_matches (VDict 2%positive) example_context)
              example_world) as [v Hv].
  vm_compute in Hv. discriminate.
Qed.

(** C8, amended. [match] is [None] when [matches] is [None] or an empty
    list or tuple and is the first element when [matches] is a non-empty
    list or tuple; in none of these states does it raise. *)
Theorem C8_match_is_first_or_none (self : Context) (w : World)
    (x : value) (xs : list value) :
  match_ (set_matches VNone self) w = Return VNone
  ∧ match_ (set_matches (VList []) self) w = Return VNone
  ∧ match_ (set_matches (VList (x :: xs)) self) w = Return x
  ∧ getattr "match" (set_matches VNone self) w = Return VNone
  ∧ getattr "match" (set_matches (VList []) self) w = Return VNone
  ∧ getattr "match" (set_matches (VList (x :: xs)) self) w = Return x
  ∧ match_ (set_matches (VTuple []) self) w = Return VNone
  ∧ match_ (set_matches (VTuple (x :: xs)) self) w = Return x.
Proof. repeat split. Qed.

(** *** Construction from an update *)

Lemma init_eq d w :
  __init__ d w
  = (Return (mk_Context (VDispatcher d) VNone VNone VNone VNone VNone VNone
               VNone VNone (fresh (dom (heap w)))),
     set_heap (<[fresh (dom (heap w)) := ∅]> (heap w)) w).
Proof. reflexivity. Qed.

(** A dict that has an entry is not the one a construction allocates. *)
Lemma heap_dict_alloc (h : gmap loc pydict) l k v :
  heap_dict h l !! k = Some v →
  heap_dict (<[fresh (dom h) := ∅]> h) l = heap_dict h l.
Proof.
  unfold heap_dict. intros Hk.
  destruct (h !! l) as [d |] eqn:Hl;
    [| simpl in Hk; by rewrite lookup_empty in Hk].
  rewrite lookup_insert_ne; [by rewrite Hl |].
  intros Heq. apply (is_fresh (dom h)). rewrite Heq.
  apply elem_of_dom. eauto.
Qed.

Lemma heap_dict_setitem (h : gmap loc pydict) l k v :
  heap_dict (dict_setitem l k v h) l !! k = Some v.
Proof.
  unfold heap_dict, dict_setitem. rewrite lookup_insert_eq. simpl.
  apply lookup_insert_eq.
Qed.

(** What a context built from an update shows, whenever it is built. *)
Lemma from_update_views u d w self w' :
  from_update (VUpdate u) d w = (Return self, w') →
  chat_data self w' = Return (stored (d_chat_data d) (chat_id <$> effective_chat u))
  ∧ user_data self w' = Return (stored (d_user_data d) (user_id <$> effective_user u))
  ∧ heap w' = <[fresh (dom (heap w)) := ∅]> (heap w)
  ∧ cache w' = cache w.
Proof.
  unfold from_update, mbind, M_bind. rewrite init_eq. simpl.
  destruct u as [[[cid] |] [[uid] |]]; simpl;
    unfold store_getitem, mbind, M_bind, mret, M_ret; simpl;
    repeat match goal with
           | |- context [?m !! ?i] =>
               destruct (m !! i) eqn:?; simpl; try discriminate
           end;
    intros [= <- <-]; repeat split.
Qed.

Lemma from_update_returns u d w :
  (∀ chat, effective_chat u = Some chat → is_Some (d_chat_data d !! chat_id chat)) →
  (∀ user, effective_user u = Some user → is_Some (d_user_data d !! user_id user)) →
  ∃ self w', from_update (VUpdate u) d w = (Return self, w').
Proof.
  intros Hc Hu. unfold from_update, mbind, M_bind. rewrite init_eq. simpl.
  destruct u as [[[cid] |] [[uid] |]]; simpl in *;
    unfold store_getitem, mbind, M_bind, mret, M_ret; simpl;
    try (destruct (Hc _ eq_refl) as [lc Hlc]; simpl in Hlc; rewrite Hlc; simpl);
    try (destruct (Hu _ eq_refl) as [lu Hlu]; simpl in Hlu; rewrite Hlu; simpl);
    eauto.
Qed.

(** C6. A context built from an update whose chat and user have entries in
    the dispatcher's stores shows, as [chat_data] and [user_data], the very
    dict objects the stores hold under those ids, and [None] for a chat or
    user the update does not carry. Being the same object, a dict changed
    through the view is found changed by every context built later for the
    same id. *)
Theorem C6_views_are_the_stored_dicts u d w :
  (∀ chat, effective_chat u = Some chat → is_Some (d_chat_data d !! chat_id chat)) →
  (∀ user, effective_user u = Some user → is_Some (d_user_data d !! user_id user)) →
  ∃ self w',
    from_update (VUpdate u) d w = (Return self, w')
    ∧ chat_data self w'
      = Return (stored (d_chat_data d) (chat_id <$> effective_chat u))
    ∧ user_data self w'
      = Return (stored (d_user_data d) (user_id <$> effective_user u))
    ∧ (∀ chat, effective_chat u = Some chat →
         ∃ l, d_chat_data d !! chat_id chat = Some l
              ∧ chat_data self w' = Return (VDict l))
    ∧ (∀ user, effective_user u = Some user →
         ∃ l, d_user_data d !! user_id user = Some l
              ∧ user_data self w' = Return (VDict l))
    ∧ (effective_chat u = None → chat_data self w' = Return VNone)
    ∧ (effective_user u = None → user_data self w' = Return VNone)
    ∧ ∀ l k v later u2 self2 w2,
        from_update (VUpdate u2) d (mutate l k v later) = (Return self2, w2) →
        (chat_data self w' = Return (VDict l) →
         chat_id <$> effective_chat u2 = chat_id <$> effective_chat u →
         chat_data self2 w2 = Return (VDict l)
         ∧ heap_dict (heap w2) l !! k = Some v)
        ∧ (user_data self w' = Return (VDict l) →
           user_id <$> effective_user u2 = user_id <$> effective_user u →
           user_data self2 w2 = Return (VDict l)
           ∧ heap_dict (heap w2) l !! k = Some v).
Proof.
  intros Hc Hu.
  destruct (from_update_returns u d w Hc Hu) as (self & w' & Hbuilt).
  exists self, w'. split; [exact Hbuilt |].
  destruct (from_update_views _ _ _ _ _ Hbuilt) as (Hcd & Hud & _ & _).
  split; [exact Hcd |]. split; [exact Hud |].
  split; [| split; [| split; [| split]]].
  - intros chat Hchat. destruct (Hc chat Hchat) as [l Hl]. exists l.
    split; [exact Hl |]. rewrite Hcd, Hchat. simpl. by rewrite Hl.
  - intros user Huser. destruct (Hu user Huser) as [l Hl]. exists l.
    split; [exact Hl |]. rewrite Hud, Huser. simpl. by rewrite Hl.
  - intros Hnone. by rewrite Hcd, Hnone.
  - intros Hnone. by rewrite Hud, Hnone.
  - intros l k v later u2 self2 w2 Hbuilt2.
    destruct (from_update_views _ _ _ _ _ Hbuilt2) as (Hcd2 & Hud2 & Hheap & _).
    assert (Hkept : heap_dict (heap w2) l !! k = Some v).
    { rewrite Hheap. unfold mutate; simpl.
      rewrite (heap_dict_alloc _ l k v); apply heap_dict_setitem. }
    split.
    + intros Hview Hsame. split; [| exact Hkept].
      rewrite Hcd2, Hsame, <- Hcd. exact Hview.
    + intros Hview Hsame. split; [| exact Hkept].
      rewrite Hud2, Hsame, <- Hud. exact Hview.
Qed.

Lemma C6_witness :
  (∀ chat, effective_chat example_update = Some chat →
     is_Some (d_chat_data example_dispatcher !! chat_id chat))
  ∧ (∀ user, effective_user example_update = Some user →
       is_Some (d_user_data example_dispatcher !! user_id user))
  ∧ ∃ self w',
      from_update (VUpdate example_update) example_dispatcher example_world
      = (Return self, w')
      ∧ chat_data self w' = Return (VDict 2%positive)
      ∧ user_data self w' = Return (VDict 3%positive).
Proof.
  assert (Hc : ∀ chat, effective_chat example_update = Some chat →
                 is_Some (d_chat_data example_dispatcher !! chat_id chat)).
  { intros chat [= <-]. vm_compute. eauto. }
  assert (Hu : ∀ user, effective_user example_update = Some user →
                 is_Some (d_user_data example_dispatcher !! user_id user)).
  { intros user [= <-]. vm_compute. eauto. }
  split; [exact Hc |]. split; [exact Hu |].
  destruct (C6_views_are_the_stored_dicts example_update example_dispatcher
              example_world Hc Hu) as (self & w' & Hb & Hcd & Hud & _).
  exists self, w'. split; [exact Hb |]. split.
  - rewrite Hcd. reflexivity.
  - rewrite Hud. reflexivity.
Defined.

(** C10. For an object that is not an [Update], [from_update] is the plain
    construction: no binding is made, both views are [None] and no store is
    asked for anything, whatever the stores hold. A context [from_error]
    builds over such an object has the same absent bindings. *)
Theorem C10_foreign_objects_bind_nothing
    (u : value) (d : Dispatcher) (w : World) (err aa ak j : value) :
  is_Update u = false →
  from_update u d w = __init__ d w
  ∧ ∃ self w',
      from_update u d w = (Return self, w')
      ∧ _chat_id_and_data self = VNone
      ∧ _user_id_and_data self = VNone
      ∧ chat_data self w' = Return VNone
      ∧ user_data self w' = Return VNone
      ∧ trace w' = trace w
      ∧ ∃ self_e,
          from_error u err d aa ak j w = (Return self_e, w')
          ∧ _chat_id_and_data self_e = _chat_id_and_data self
          ∧ _user_id_and_data self_e = _user_id_and_data self
          ∧ chat_data self_e w' = Return VNone
          ∧ user_data self_e w' = Return VNone.
Proof.
  intros Hu.
  assert (Hplain : from_update u d w = __init__ d w).
  { unfold from_update, mbind, M_bind. rewrite init_eq.
    destruct u; try reflexivity. discriminate. }
  split; [exact Hplain |].
  unfold from_error, mbind, M_bind. rewrite Hplain, init_eq.
  eexists _, _. split; [reflexivity |].
  repeat (split; [reflexivity |]).
  eexists. repeat split.
Qed.

Lemma C10_witness :
  is_Update (VStr "not an update") = false
  ∧ from_update (VStr "not an update") example_dispatcher example_world
    = __init__ example_dispatcher example_world.
Proof.
  split; [reflexivity |].
  exact (proj1 (C10_foreign_objects_bind_nothing (VStr "not an update")
                  example_dispatcher example_world VNone VNone VNone VNone
                  eq_refl)).
Defined.

(** C5. With a bot that is not an [ExtBot], or an [ExtBot] whose flag is
    off, [drop_callback_data] raises [RuntimeError] and the cache is neither
    asked nor changed. With the flag on, it raises [KeyError] exactly when
    the id of the callback query is not in the cache; for an id that is
    found it returns, whether or not a payload was cached for it, and
    afterwards neither the id nor its payload is in the cache. *)
Theorem C5_drop_callback_data (self : Context) (d : Dispatcher)
    (q : CallbackQuery) (w : World) :
  _dispatcher self = VDispatcher d →
  match d_bot d with
  | PlainBot | ExtBot false =>
      raised_class (drop_callback_data self q w).1 = Some RuntimeError
      ∧ (drop_callback_data self q w).2 = w
  | ExtBot true =>
      match callback_queries (cache w) !! cq_id q with
      | None =>
          raised_class (drop_callback_data self q w).1 = Some KeyError
      | Some data_id =>
          (drop_callback_data self q w).1 = Return tt
          ∧ callback_queries (cache (drop_callback_data self q w).2) !! cq_id q
            = None
          ∧ keyboard_data (cache (drop_callback_data self q w).2) !! data_id
            = None
      end
      ∧ trace (drop_callback_data self q w).2 = (trace w ++ [CacheDrop (cq_id q)])%list
  end.
Proof.
  intros Hd.
  unfold drop_callback_data, mbind, M_bind, reading, bot, dispatcher_attr.
  rewrite Hd. simpl.
  destruct (d_bot d) as [| [|]]; simpl; [by split | | by split].
  unfold cache_drop_data, drop_data.
  destruct (callback_queries (cache w) !! cq_id q) as [data_id |]; simpl.
  - repeat split; apply lookup_delete_eq.
  - by split.
Qed.

Lemma C5_witness :
  _dispatcher example_context = VDispatcher example_dispatcher
  ∧ (drop_callback_data example_context (mk_CallbackQuery "query-1")
       example_world).1 = Return tt
  ∧ raised_class
      (drop_callback_data example_context (mk_CallbackQuery "query-2")
         example_world).1 = Some KeyError.
Proof.
  assert (H : _dispatcher example_context = VDispatcher example_dispatcher).
  { vm_compute. reflexivity. }
  split; [exact H |]. split.
  - exact (proj1 (proj1 (C5_drop_callback_data example_context
                           example_dispatcher (mk_CallbackQuery "query-1")
                           example_world H))).
  - exact (proj1 (C5_drop_callback_data example_context example_dispatcher
                    (mk_CallbackQuery "query-2") example_world H)).
Defined.

(** *** Bulk update *)

Lemma classify_slot k s : classify k = Slot s → k = slot_name s.
Proof.
  unfold classify. simpl. intros H.
  repeat match type of H with
         | (if String.eqb k ?n then _ else _) = _ =>
             destruct (String.eqb k n) eqn:E;
             [apply String.eqb_eq in E; subst k;
              first [discriminate H | by injection H as <-]
             | clear E]
         end.
  discriminate H.
Qed.

Lemma get_set_slot s v self : get_slot s (set_slot s v self) = v.
Proof. by destruct s. Qed.

Lemma get_set_slot_ne s s' v self :
  s ≠ s' → get_slot s (set_slot s' v self) = get_slot s self.
Proof. by destruct s, s'. Qed.

Lemma dict_set_slot s v self : __dict__ (set_slot s v self) = __dict__ self.
Proof. by destruct s. Qed.

Lemma heap_dict_setitem_ne (h : gmap loc pydict) l k k' v :
  k ≠ k' → heap_dict (dict_setitem l k' v h) l !! k = heap_dict h l !! k.
Proof.
  intros Hne. unfold heap_dict, dict_setitem. rewrite lookup_insert_eq. simpl.
  by rewrite lookup_insert_ne.
Qed.

(** One assignment to a settable name succeeds, is read back, and leaves
    every other settable name as it reads. *)
Lemma setattr_settable k0 v0 self w :
  settable k0 →
  ∃ self1 w1,
    setattr k0 v0 self w = (Return self1, w1)
    ∧ getattr k0 self1 w1 = Return v0
    ∧ ∀ k, settable k → k ≠ k0 → getattr k self1 w1 = getattr k self w.
Proof.
  unfold settable, setattr, getattr.
  destruct (classify k0) as [| s0 | | |] eqn:E0; try contradiction; intros _.
  - eexists _, _. split; [reflexivity |]. split.
    + by rewrite get_set_slot.
    + intros k Hk Hne.
      destruct (classify k) as [| s | | |] eqn:E; try contradiction.
      * rewrite get_set_slot_ne; [reflexivity |].
        intros ->. apply Hne.
        by rewrite (classify_slot _ _ E), (classify_slot _ _ E0).
      * by rewrite dict_set_slot.
  - eexists _, _. split; [reflexivity |]. split.
    + simpl. by rewrite heap_dict_setitem.
    + intros k Hk Hne.
      destruct (classify k) as [| s | | |] eqn:E; try contradiction;
        [reflexivity |].
      simpl. rewrite heap_dict_setitem_ne; [reflexivity | congruence].
Qed.

Lemma update_settable (data : list (string * value)) :
  ∀ self w,
    NoDup data.*1 →
    Forall settable data.*1 →
    ∃ self' w',
      update data self w = (Return tt, (self', w'))
      ∧ (∀ k v, (k, v) ∈ data → getattr k self' w' = Return v)
      ∧ (∀ k, settable k → k ∉ data.*1 → getattr k self' w' = getattr k self w).
Proof.
  induction data as [| [k0 v0] rest IH]; intros self w Hnd Hall.
  - exists self, w. split; [reflexivity |]. split; [| done].
    intros k v Hin. by apply elem_of_nil in Hin.
  - simpl in Hnd, Hall.
    apply NoDup_cons in Hnd as [Hfresh Hnd].
    apply Forall_cons in Hall as [Hk0 Hall].
    destruct (setattr_settable k0 v0 self w Hk0) as (self1 & w1 & Hset & Hget & Hframe).
    destruct (IH self1 w1 Hnd Hall) as (self' & w' & Hupd & Hall' & Hframe').
    exists self', w'. simpl. rewrite Hset. split; [exact Hupd |]. split.
    + intros k v Hin. apply elem_of_cons in Hin as [[= -> ->] | Hin].
      * rewrite Hframe'; [exact Hget | exact Hk0 | exact Hfresh].
      * by apply Hall'.
    + intros k Hk Hnotin. apply not_elem_of_cons in Hnotin as [Hne Hnotin].
      rewrite Hframe' by done. by apply Hframe.
Qed.

(** C7, as stated, fails: a mapping with the key [bot_data] is not merged;
    the setter raises and the attribute still reads as the dispatcher's
    dict. *)
Lemma C7_counterexample : ¬ update_sets_every_key.
Proof.
  intros Hclaim.
  specialize (Hclaim [("bot_data", VInt 1)] example_context example_world).
  assert (Hnd : NoDup [("bot_data", VInt 1)].*1).
  { apply NoDup_singleton. }
  specialize (Hclaim Hnd "bot_data" (VInt 1)).
  assert (Hin : ("bot_data", VInt 1) ∈ [("bot_data", VInt 1)]).
  { apply list_elem_of_singleton. reflexivity. }
  specialize (Hclaim Hin). vm_compute in Hclaim. discriminate.
Qed.

(** C7, amended. For every context and every mapping whose keys are slots
    of the class ([job], [error], [args], [matches] and the other fixed
    fields among them) or names the class does not declare, [update]
    returns and afterwards each key reads as its value. *)
Theorem C7_update_sets_settable_keys
    (data : list (string * value)) (self : Context) (w : World) :
  NoDup data.*1 →
  Forall settable data.*1 →
  ∃ self' w',
    update data self w = (Return tt, (self', w'))
    ∧ ∀ k v, (k, v) ∈ data → getattr k self' w' = Return v.
Proof.
  intros Hnd Hall.
  destruct (update_settable data self w Hnd Hall) as (self' & w' & Hupd & Hget & _).
  by exists self', w'.
Qed.

Lemma C7_witness :
  NoDup [("job", VObj "job-1"); ("error", VNone); ("custom", VInt 1)].*1
  ∧ Forall settable
      [("job", VObj "job-1"); ("error", VNone); ("custom", VInt 1)].*1
  ∧ ∃ self' w',
      update [("job", VObj "job-1"); ("error", VNone); ("custom", VInt 1)]
        example_context example_world = (Return tt, (self', w'))
      ∧ ∀ k v,
          (k, v) ∈ [("job", VObj "job-1"); ("error", VNone); ("custom", VInt 1)] →
          getattr k self' w' = Return v.
Proof.
  assert (Hnd : NoDup [("job", VObj "job-1"); ("error", VNone);
                       ("custom", VInt 1)].*1).
  { apply (bool_decide_unpack _). vm_compute. exact I. }
  assert (Hall : Forall settable [("job", VObj "job-1"); ("error", VNone);
                                  ("custom", VInt 1)].*1).
  { simpl. repeat (apply Forall_cons; split; [exact I |]). apply Forall_nil_2. }
  split; [exact Hnd |]. split; [exact Hall |].
  exact (C7_update_sets_settable_keys _ example_context example_world Hnd Hall).
Defined.

End Context.

(** ** The transport over its lifetime *)

Section TransportLifetime.
Import HTTPXRequest TransportSpec Lifecycle.

(** The instance and the timeout objects a call leaves behind. *)
Lemma do_request_leaves net self m u rd ct rt wt pt (h : gmap loc Httpx.Timeout) :
  (do_request net self m u rd ct rt wt pt h).2
  = (set__client
       (match Httpx.state (_client self) with
        | Httpx.CLOSED => _client self
        | _ => Httpx.mk_AsyncClient (Httpx.timeout (_client self))
                 (Httpx.proxies (_client self)) (Httpx.limits (_client self))
                 Httpx.OPENED
        end) self,
     <[fresh (dom h) :=
         effective_timeout ct rt wt pt
           (Httpx.timeout_at h (Httpx.timeout (_client self)))]> h).
Proof.
  unfold do_request. rewrite call_timeout_eq. unfold Httpx.request.
  destruct (Httpx.state (_client self)); simpl;
    try (destruct (net _) as [res | err]; simpl;
         [| destruct (isinstance err TimeoutException);
            [| destruct (isinstance err HTTPError)]]);
    reflexivity.
Qed.

(** X1. A call adds one timeout object, the one it sends, and changes no
    timeout object that existed before it. *)
Theorem do_request_allocates_one_timeout
    net self m u rd ct rt wt pt (h : gmap loc Httpx.Timeout) :
  let h' := (do_request net self m u rd ct rt wt pt h).2.2 in
  h ⊆ h'
  ∧ dom h' = {[fresh (dom h)]} ∪ dom h
  ∧ size h' = S (size h)
  ∧ h' !! fresh (dom h)
    = Some (Httpx.r_timeout (outgoing self m u rd ct rt wt pt h)).
Proof.
  intros h'. unfold h'. rewrite do_request_leaves, outgoing_timeout.
  cbn [snd].
  assert (Hnew : h !! fresh (dom h) = None).
  { apply not_elem_of_dom. apply is_fresh. }
  split; [by apply insert_subseteq |].
  split; [apply dom_insert_L |].
  split; [by apply map_size_insert_None |].
  apply lookup_insert_eq.
Qed.

Lemma init_settings ua n proxy ct rt wt pt (h : gmap loc Httpx.Timeout) :
  settings (__init__ ua n proxy ct rt wt pt h)
  = (Some (Httpx.mk_Timeout ct rt wt pt), n, Httpx.mk_Limits n n, proxy, ua)
  ∧ Httpx.state (_client (__init__ ua n proxy ct rt wt pt h).1) = Httpx.UNOPENED.
Proof.
  unfold settings, __init__, Httpx.new_AsyncClient, Httpx.new_Timeout,
    Httpx.timeout_at. simpl.
  by rewrite !lookup_insert_eq.
Qed.

Lemma step_settings s op t :
  s.2 !! Httpx.timeout (_client s.1) = Some t →
  settings (step s op) = settings s.
Proof.
  intros Ht. destruct s as [self h]. destruct op as [| | net c]; simpl in *.
  - reflexivity.
  - reflexivity.
  - unfold do_call. rewrite do_request_leaves. unfold settings. simpl.
    pose proof (fresh_loc_ne h _ _ Ht) as Hne.
    destruct (Httpx.state (_client self)); simpl;
      by rewrite lookup_insert_ne.
Qed.

Lemma run_settings ops :
  ∀ s t, s.2 !! Httpx.timeout (_client s.1) = Some t →
         settings (run ops s) = settings s.
Proof.
  induction ops as [| op ops IH]; intros s t Ht; simpl; [reflexivity |].
  pose proof (step_settings s op t Ht) as Hstep.
  rewrite (IH (step s op) t).
  - exact Hstep.
  - change ((settings (step s op)).1.1.1.1 = Some t). by rewrite Hstep.
Qed.

(** X2. Whatever is done with an instance after it is built, in whatever
    order (requests that return or raise, with or without overrides,
    [initialize], [stop]), its defaults stay those given to the constructor:
    the four timeouts, the pool size, which bounds connections and
    keep-alive connections alike, the proxy and the user agent. *)
Theorem settings_fixed_at_construction
    ua n proxy ct rt wt pt (h : gmap loc Httpx.Timeout) (ops : list Op) :
  settings (run ops (__init__ ua n proxy ct rt wt pt h))
  = (Some (Httpx.mk_Timeout ct rt wt pt), n, Httpx.mk_Limits n n, proxy, ua).
Proof.
  destruct (init_settings ua n proxy ct rt wt pt h) as [Hinit _].
  rewrite (run_settings ops _ (Httpx.mk_Timeout ct rt wt pt)); [exact Hinit |].
  change ((settings (__init__ ua n proxy ct rt wt pt h)).1.1.1.1
          = Some (Httpx.mk_Timeout ct rt wt pt)).
  by rewrite Hinit.
Qed.

Lemma step_closed s op :
  Httpx.state (_client s.1) = Httpx.CLOSED →
  Httpx.state (_client (step s op).1) = Httpx.CLOSED.
Proof.
  intros Hc. destruct s as [self h]. destruct op as [| | net c]; simpl in *;
    [exact Hc | reflexivity |].
  unfold do_call. rewrite do_request_leaves. simpl. by rewrite Hc.
Qed.

Lemma run_closed ops :
  ∀ s, Httpx.state (_client s.1) = Httpx.CLOSED →
       Httpx.state (_client (run ops s).1) = Httpx.CLOSED.
Proof.
  induction ops as [| op ops IH]; intros s Hc; simpl; [exact Hc |].
  apply IH. by apply step_closed.
Qed.

(** X3. [stop] is final: nothing that is done afterwards reopens the
    client, neither [initialize] nor a request nor a second [stop], so
    a request made at any later point fails. *)
Theorem stop_is_final (before after : list Op) s net (c : Call) :
  let s' := run (before ++ OpStop :: after) s in
  Httpx.state (_client s'.1) = Httpx.CLOSED
  ∧ failed (do_call net s'.1 c s'.2).1
  ∧ Httpx.state (_client (do_call net s'.1 c s'.2).2.1) = Httpx.CLOSED.
Proof.
  intros s'.
  assert (Hc : Httpx.state (_client s'.1) = Httpx.CLOSED).
  { unfold s', run. rewrite fold_left_app. simpl. by apply run_closed. }
  split; [exact Hc |].
  unfold do_call.
  destruct (do_request_closed net s'.1 (c_method c) (c_url c)
              (c_request_data c) (c_connect_timeout c) (c_read_timeout c)
              (c_write_timeout c) (c_pool_timeout c) s'.2 Hc) as [Hr Hs].
  split; [| exact Hs]. rewrite Hr. eexists. reflexivity.
Qed.

(** X4. A response is returned as it is, whatever its status code: on a
    client that is not closed, [do_request] returns the status code and the
    body of the response and does not raise, and the client is open
    afterwards. *)
Theorem responses_are_returned_whatever_the_status
    net self m u rd ct rt wt pt (h : gmap loc Httpx.Timeout) res :
  Httpx.state (_client self) ≠ Httpx.CLOSED →
  net (outgoing self m u rd ct rt wt pt h) = Return res →
  (do_request net self m u rd ct rt wt pt h).1
  = Return (Httpx.status_code res, Httpx.content res)
  ∧ Httpx.state (_client (do_request net self m u rd ct rt wt pt h).2.1)
    = Httpx.OPENED.
Proof.
  intros Hopen Hres. split.
  - rewrite do_request_open by done. by rewrite Hres.
  - rewrite do_request_leaves. simpl.
    by destruct (Httpx.state (_client self)).
Qed.

Lemma responses_are_returned_witness :
  Httpx.state (_client default_instance.1) ≠ Httpx.CLOSED
  ∧ (do_request (λ _, Return (Httpx.mk_Response 502 []))
       default_instance.1 "POST" "sendMessage" None None None None None
       default_instance.2).1
    = Return (502, []).
Proof.
  assert (H : Httpx.state (_client default_instance.1) ≠ Httpx.CLOSED).
  { vm_compute. discriminate. }
  split; [exact H |].
  exact (proj1 (responses_are_returned_whatever_the_status
                  (λ _, Return (Httpx.mk_Response 502 []))
                  default_instance.1 "POST" "sendMessage" None None None None
                  None default_instance.2 (Httpx.mk_Response 502 []) H eq_refl)).
Defined.

(** X5. What is sent: the method and the URL as given, the user agent as
    the only header, and the two parts of the payload, or neither when there
    is no payload. The result is the answer to that one request, surfaced. *)
Theorem one_request_is_sent
    net self m u rd ct rt wt pt (h : gmap loc Httpx.Timeout) :
  Httpx.state (_client self) ≠ Httpx.CLOSED →
  ∃ req,
    (do_request net self m u rd ct rt wt pt h).1 = surfaced (net req)
    ∧ Httpx.r_method req = m
    ∧ Httpx.r_url req = u
    ∧ Httpx.r_headers req = [("User-Agent", USER_AGENT self)]
    ∧ Httpx.r_files req = multipart_data <$> rd
    ∧ Httpx.r_data req = json_parameters <$> rd
    ∧ ∀ net', net' req = net req →
        (do_request net' self m u rd ct rt wt pt h).1
        = (do_request net self m u rd ct rt wt pt h).1.
Proof.
  intros Hopen. exists (outgoing self m u rd ct rt wt pt h).
  split; [by apply do_request_open |].
  do 5 (split; [unfold outgoing; rewrite call_timeout_eq; by destruct rd |]).
  intros net' Hsame. rewrite !do_request_open by done. by rewrite Hsame.
Qed.

Lemma one_request_is_sent_witness :
  Httpx.state (_client default_instance.1) ≠ Httpx.CLOSED
  ∧ ∃ req,
      (do_request net_ok default_instance.1 "POST" "getMe" None None None
         None None default_instance.2).1 = surfaced (net_ok req)
      ∧ Httpx.r_files req = None
      ∧ Httpx.r_data req = None.
Proof.
  assert (H : Httpx.state (_client default_instance.1) ≠ Httpx.CLOSED).
  { vm_compute. discriminate. }
  split; [exact H |].
  destruct (one_request_is_sent net_ok default_instance.1 "POST" "getMe" None
              None None None None default_instance.2 H)
    as (req & Hr & _ & _ & _ & Hf & Hd & _).
  exists req. split; [exact Hr |]. split; [exact Hf | exact Hd].
Defined.

(** X6. A failure of the client that is mapped to [NetworkError] keeps the
    client's message, behind a fixed prefix. *)
Theorem network_error_keeps_the_message
    net self m u rd ct rt wt pt (h : gmap loc Httpx.Timeout) err :
  client_answer net self m u rd ct rt wt pt h = Raise err →
  isinstance err TimeoutException = false →
  isinstance err HTTPError = true →
  (do_request net self m u rd ct rt wt pt h).1
  = Raise (mk_exn NetworkError ("httpx HTTPError: " ++ exn_msg err)).
Proof.
  intros Hans Ht Hh. rewrite do_request_surfaces, Hans. simpl.
  by rewrite Ht, Hh.
Qed.

Lemma network_error_keeps_the_message_witness :
  client_answer net_connect_error default_instance.1 "POST" "getMe" None None
    None None None default_instance.2
  = Raise (mk_exn ConnectError "connection refused")
  ∧ isinstance (mk_exn ConnectError "connection refused") TimeoutException = false
  ∧ isinstance (mk_exn ConnectError "connection refused") HTTPError = true
  ∧ (do_request net_connect_error default_instance.1 "POST" "getMe" None None
       None None None default_instance.2).1
    = Raise (mk_exn NetworkError "httpx HTTPError: connection refused").
Proof.
  assert (H : client_answer net_connect_error default_instance.1 "POST" "getMe"
                None None None None None default_instance.2
              = Raise (mk_exn ConnectError "connection refused")).
  { vm_compute. reflexivity. }
  split; [exact H |]. split; [reflexivity |]. split; [reflexivity |].
  exact (network_error_keeps_the_message _ _ _ _ _ _ _ _ _ _ _ H eq_refl eq_refl).
Defined.

End TransportLifetime.

(** ** The constructors and the attribute protocol *)

Section Constructors.
Import CallbackContext ContextSpec ConstructorSpec.

(** What any construction from an update does to the world, whether it
    returns or raises: one new dict, the instance dict, and nothing else. *)
Lemma from_update_world u d w :
  heap (from_update u d w).2 = <[fresh (dom (heap w)) := ∅]> (heap w)
  ∧ cache (from_update u d w).2 = cache w
  ∧ ∀ c, (from_update u d w).1 = Return c → __dict__ c = fresh (dom (heap w)).
Proof.
  unfold from_update, mbind, M_bind. rewrite init_eq.
  destruct u as [| | | | | | | | | | | [[[cid] |] [[uid] |]]]; simpl;
    unfold store_getitem, mbind, M_bind, mret, M_ret; simpl;
    repeat match goal with
           | |- context [?m !! ?i] =>
               lazymatch type of m with
               | gmap Z loc => destruct (m !! i) eqn:?; simpl
               end
           end;
    (split; [reflexivity |]; split; [reflexivity |]);
    intros c Hc; try discriminate; by injection Hc as <-.
Qed.

(** X7. A context built for a job carries the job and nothing else: both
    binding slots hold [None], both views are [None], the dispatcher's global dict as [bot_data],
    no event field set; no store and no cache is touched. *)
Theorem from_job_binds_nothing (j : value) (d : Dispatcher) (w : World) :
  ∃ c w',
    from_job j d w = (Return c, w')
    ∧ job c = j
    ∧ (_chat_id_and_data c, _user_id_and_data c) = (VNone, VNone)
    ∧ chat_data c w' = Return VNone
    ∧ user_data c w' = Return VNone
    ∧ bot_data c = Return (VDict (d_bot_data d))
    ∧ (args c, matches c, error c, async_args c, async_kwargs c)
      = (VNone, VNone, VNone, VNone, VNone)
    ∧ trace w' = trace w
    ∧ cache w' = cache w
    ∧ heap w ⊆ heap w'.
Proof.
  unfold from_job, mbind, M_bind. rewrite init_eq. simpl.
  eexists _, _. split; [reflexivity |]. repeat (split; [reflexivity |]).
  apply insert_subseteq, not_elem_of_dom, is_fresh.
Qed.

(** X8. [from_error] builds what [from_update] builds and then attaches the
    error, the arguments of the failed call and the job: the bindings and
    the views are those of [from_update], and when [from_update] raises, so
    does [from_error], in the same world. *)
Theorem from_error_extends_from_update
    (u err : value) (d : Dispatcher) (aa ak j : value) (w : World) :
  match from_update u d w with
  | (Return c, w') =>
      ∃ ce,
        from_error u err d aa ak j w = (Return ce, w')
        ∧ (error ce, async_args ce, async_kwargs ce, job ce) = (err, aa, ak, j)
        ∧ (_dispatcher ce, _chat_id_and_data ce, _user_id_and_data ce)
          = (_dispatcher c, _chat_id_and_data c, _user_id_and_data c)
        ∧ (args ce, matches ce, __dict__ ce) = (args c, matches c, __dict__ c)
        ∧ chat_data ce w' = chat_data c w'
        ∧ user_data ce w' = user_data c w'
        ∧ bot_data ce = bot_data c
  | (Raise e, w') => from_error u err d aa ak j w = (Raise e, w')
  end.
Proof.
  unfold from_error, mbind, M_bind.
  destruct (from_update u d w) as [[c | e] w']; [| reflexivity].
  eexists. split; [reflexivity |]. repeat split.
Qed.

(** X10. A construction that returns asked each store once at most, the
    chat store before the user store and only for what the update carries;
    it changed no dict that existed and nothing in the cache, and the
    instance dict it made is new and empty. *)
Theorem from_update_only_reads (u : Update) (d : Dispatcher) (w : World) c w' :
  from_update (VUpdate u) d w = (Return c, w') →
  trace w' = (trace w ++ store_gets u)%list
  ∧ heap w ⊆ heap w'
  ∧ cache w' = cache w
  ∧ (__dict__ c ∉ dom (heap w))
  ∧ heap w' !! __dict__ c = Some ∅.
Proof.
  intros Hb.
  destruct (from_update_world (VUpdate u) d w) as (Hheap & Hcache & Hdict).
  rewrite Hb in Hheap, Hcache, Hdict. simpl in *.
  specialize (Hdict c eq_refl).
  assert (Htrace : trace w' = (trace w ++ store_gets u)%list).
  { revert Hb. unfold from_update, mbind, M_bind. rewrite init_eq.
    destruct u as [[[cid] |] [[uid] |]]; simpl;
      unfold store_getitem, mbind, M_bind, mret, M_ret, store_gets; simpl;
      repeat match goal with
             | |- context [?m !! ?i] =>
                 lazymatch type of m with
                 | gmap Z loc => destruct (m !! i) eqn:?; simpl; try discriminate
                 end
             end;
      intros [= <- <-]; simpl; by rewrite <- ?app_assoc, ?app_nil_r. }
  split; [exact Htrace |].
  split; [rewrite Hheap; apply insert_subseteq, not_elem_of_dom, is_fresh |].
  split; [exact Hcache |].
  split; [rewrite Hdict; apply is_fresh |].
  rewrite Hheap, Hdict. apply lookup_insert_eq.
Qed.

Lemma from_update_only_reads_witness :
  ∃ c w',
    from_update (VUpdate example_update) example_dispatcher example_world
    = (Return c, w')
    ∧ trace w' = [StoreGet ChatStore 42; StoreGet UserStore 7].
Proof.
  assert (Hc : ∀ chat, effective_chat example_update = Some chat →
                 is_Some (d_chat_data example_dispatcher !! chat_id chat)).
  { intros chat [= <-]. vm_compute. eauto. }
  assert (Hu : ∀ user, effective_user example_update = Some user →
                 is_Some (d_user_data example_dispatcher !! user_id user)).
  { intros user [= <-]. vm_compute. eauto. }
  destruct (from_update_returns example_update example_dispatcher example_world
              Hc Hu) as (c & w' & Hb).
  exists c, w'. split; [exact Hb |].
  exact (proj1 (from_update_only_reads example_update example_dispatcher
                  example_world c w' Hb)).
Defined.

End Constructors.

(** ** Bulk update and custom attributes *)

Section Attributes.
Import CallbackContext ContextSpec ConstructorSpec.

(** X11. Updating with two mappings one after the other is updating with
    their items in a row; when the first raises, the second is not
    applied. *)
Theorem update_app (a b : list (string * value)) :
  ∀ self w,
    update (a ++ b) self w
    = match update a self w with
      | (Return _, (self', w')) => update b self' w'
      | (Raise e, s) => (Raise e, s)
      end.
Proof.
  induction a as [| [k v] a IH]; intros self w; simpl; [reflexivity |].
  destruct (setattr k v self w) as [[self1 | e] w1]; [apply IH | reflexivity].
Qed.

Lemma setattr_property k p v self w :
  classify k = Property p →
  (setattr k v self w).2 = w
  ∧ raised_class (setattr k v self w).1 = Some AttributeError.
Proof. unfold setattr. intros ->. by destruct p. Qed.

(** X12. [update] is not all-or-nothing. When a key names a property of the
    class, [update] raises [AttributeError] at that key: the keys before it
    have been set and stay set, the keys after it are never looked at. *)
Theorem update_stops_at_a_property
    (before after : list (string * value)) k p v self w :
  NoDup before.*1 →
  Forall settable before.*1 →
  classify k = Property p →
  ∃ self' w',
    update before self w = (Return tt, (self', w'))
    ∧ (update (before ++ (k, v) :: after) self w).2 = (self', w')
    ∧ raised_class (update (before ++ (k, v) :: after) self w).1
      = Some AttributeError
    ∧ ∀ k' v', (k', v') ∈ before → getattr k' self' w' = Return v'.
Proof.
  intros Hnd Hall Hk.
  destruct (update_settable before self w Hnd Hall)
    as (self' & w' & Hupd & Hget & _).
  exists self', w'. split; [exact Hupd |].
  rewrite update_app, Hupd. simpl.
  destruct (setattr_property k p v self' w' Hk) as [Hw He].
  destruct (setattr k v self' w') as [[c | e] w1]; simpl in *;
    [discriminate |].
  subst w1. by repeat split.
Qed.

Lemma update_stops_at_a_property_witness :
  NoDup [("job", VObj "job-1")].*1
  ∧ Forall settable [("job", VObj "job-1")].*1
  ∧ classify "chat_data" = Property P_chat_data
  ∧ ∃ self' w',
      update [("job", VObj "job-1")] example_context example_world
      = (Return tt, (self', w'))
      ∧ raised_class
          (update ([("job", VObj "job-1")]
                   ++ ("chat_data", VNone) :: [("error", VStr "late")])
             example_context example_world).1 = Some AttributeError
      ∧ getattr "job" self' w' = Return (VObj "job-1").
Proof.
  assert (Hnd : NoDup [("job", VObj "job-1")].*1).
  { apply (bool_decide_unpack _). vm_compute. exact I. }
  assert (Hall : Forall settable [("job", VObj "job-1")].*1).
  { simpl. apply Forall_cons. split; [exact I | apply Forall_nil_2]. }
  split; [exact Hnd |]. split; [exact Hall |]. split; [reflexivity |].
  destruct (update_stops_at_a_property [("job", VObj "job-1")]
              [("error", VStr "late")] "chat_data" P_chat_data VNone
              example_context example_world Hnd Hall eq_refl)
    as (self' & w' & Hupd & _ & Hraise & Hget).
  exists self', w'. split; [exact Hupd |]. split; [exact Hraise |].
  apply Hget. apply list_elem_of_singleton. reflexivity.
Defined.

(** X13. [update] changes what it is asked to change: after an update with
    settable keys, every other settable name reads as it did before. *)
Theorem update_keeps_unlisted_attributes
    (data : list (string * value)) self w k :
  NoDup data.*1 →
  Forall settable data.*1 →
  settable k →
  k ∉ data.*1 →
  getattr k (update data self w).2.1 (update data self w).2.2 = getattr k self w.
Proof.
  intros Hnd Hall Hk Hnotin.
  destruct (update_settable data self w Hnd Hall)
    as (self' & w' & Hupd & _ & Hframe).
  rewrite Hupd. simpl. by apply Hframe.
Qed.

Lemma update_keeps_unlisted_attributes_witness :
  NoDup [("job", VObj "job-1"); ("custom", VInt 1)].*1
  ∧ Forall settable [("job", VObj "job-1"); ("custom", VInt 1)].*1
  ∧ settable "args"
  ∧ ("args" ∉ [("job", VObj "job-1"); ("custom", VInt 1)].*1)
  ∧ getattr "args"
      (update [("job", VObj "job-1"); ("custom", VInt 1)] example_context
         example_world).2.1
      (update [("job", VObj "job-1"); ("custom", VInt 1)] example_context
         example_world).2.2
    = getattr "args" example_context example_world.
Proof.
  assert (Hnd : NoDup [("job", VObj "job-1"); ("custom", VInt 1)].*1).
  { apply (bool_decide_unpack _). vm_compute. exact I. }
  assert (Hall : Forall settable [("job", VObj "job-1"); ("custom", VInt 1)].*1).
  { simpl. repeat (apply Forall_cons; split; [exact I |]). apply Forall_nil_2. }
  assert (Hnot : "args" ∉ [("job", VObj "job-1"); ("custom", VInt 1)].*1).
  { apply (bool_decide_unpack _). vm_compute. exact I. }
  split; [exact Hnd |]. split; [exact Hall |]. split; [exact I |].
  split; [exact Hnot |].
  exact (update_keeps_unlisted_attributes _ example_context example_world "args"
           Hnd Hall I Hnot).
Defined.

Lemma setattr_keeps_private k v self w self' w' :
  k ∉ private_slots →
  setattr k v self w = (Return self', w') →
  (_dispatcher self', _chat_id_and_data self', _user_id_and_data self')
  = (_dispatcher self, _chat_id_and_data self, _user_id_and_data self).
Proof.
  intros Hk. unfold setattr.
  destruct (classify k) as [p | s | | |] eqn:E.
  - destruct p; discriminate.
  - intros [= <- <-].
    destruct s; try reflexivity; exfalso; apply Hk;
      rewrite (classify_slot _ _ E); unfold private_slots; simpl;
      rewrite !elem_of_cons; tauto.
  - destruct v; try discriminate. by intros [= <- <-].
  - discriminate.
  - by intros [= <- <-].
Qed.

Lemma update_keeps_private (data : list (string * value)) :
  ∀ self w,
    Forall (λ k, k ∉ private_slots) data.*1 →
    (_dispatcher (update data self w).2.1,
     _chat_id_and_data (update data self w).2.1,
     _user_id_and_data (update data self w).2.1)
    = (_dispatcher self, _chat_id_and_data self, _user_id_and_data self).
Proof.
  induction data as [| [k v] rest IH]; intros self w Hall; simpl;
    [reflexivity |].
  simpl in Hall. apply Forall_cons in Hall as [Hk Hall].
  destruct (setattr k v self w) as [[self1 | e] w1] eqn:Hset; [| reflexivity].
  rewrite IH by done. by eapply setattr_keeps_private.
Qed.







(** X15. [match] catches [IndexError] and [TypeError] only. When [matches]
    holds a dict that has no key [0], the [KeyError] of the lookup is raised
    to the caller. *)
Theorem match_lets_key_error_through (self : Context) (w : World) (l : loc) :
  heap_dict (heap w) l !! KInt 0 = None →
  raised_class (match_ (set_matches (VDict l) self) w) = Some KeyError
  ∧ raised_class (getattr "match" (set_matches (VDict l) self) w) = Some KeyError.
Proof.
  intros Hmiss.
  assert (H : match_ (set_matches (VDict l) self) w = raise KeyError "key").
  { unfold match_, subscript, set_matches, matches, dict_getitem.
    change (Z.of_nat 0) with 0. by rewrite Hmiss. }
  split; [by rewrite H |].
  change (getattr "match" (set_matches (VDict l) self) w)
    with (match_ (set_matches (VDict l) self) w).
  by rewrite H.
Qed.

Lemma match_lets_key_error_through_witness :
  heap_dict (heap example_world) 2%positive !! KInt 0 = None
  ∧ raised_class
      (match_ (set_matches (VDict 2%positive) example_context) example_world)
    = Some KeyError.
Proof.
  assert (H : heap_dict (heap example_world) 2%positive !! KInt 0 = None).
  { vm_compute. reflexivity. }
  split; [exact H |].
  exact (proj1 (match_lets_key_error_through example_context example_world
                  2%positive H)).
Defined.

(** X16. Custom attributes belong to one context. Of two contexts built one
    after the other, an attribute set on the first is read back from it, is
    not seen by the second, and changes none of the dicts that existed
    before the two were built, the stored chat and user dicts among them. *)
Theorem custom_attributes_are_per_context
    (u1 u2 : value) (d : Dispatcher) (w : World) c1 w1 c2 w2 name v :
  from_update u1 d w = (Return c1, w1) →
  from_update u2 d w1 = (Return c2, w2) →
  classify name = Plain →
  ∃ w3,
    setattr name v c1 w2 = (Return c1, w3)
    ∧ getattr name c1 w3 = Return v
    ∧ getattr name c2 w3 = getattr name c2 w2
    ∧ __dict__ c1 ≠ __dict__ c2
    ∧ ∀ l, l ∈ dom (heap w) → heap w3 !! l = heap w !! l.
Proof.
  intros Hb1 Hb2 Hplain.
  destruct (from_update_world u1 d w) as (Hh1 & _ & Hd1).
  destruct (from_update_world u2 d w1) as (Hh2 & _ & Hd2).
  rewrite Hb1 in Hh1, Hd1. rewrite Hb2 in Hh2, Hd2. simpl in *.
  specialize (Hd1 c1 eq_refl). specialize (Hd2 c2 eq_refl).
  assert (Hin1 : __dict__ c1 ∈ dom (heap w1)).
  { rewrite Hh1, Hd1, dom_insert_L. apply elem_of_union_l.
    by apply elem_of_singleton. }
  assert (Hne : __dict__ c1 ≠ __dict__ c2).
  { intros Heq. apply (is_fresh (dom (heap w1))). by rewrite <- Hd2, <- Heq. }
  eexists. unfold setattr, getattr. rewrite Hplain.
  split; [reflexivity |]. simpl.
  split; [by rewrite heap_dict_setitem |].
  split.
  { unfold heap_dict, dict_setitem. by rewrite lookup_insert_ne. }
  split; [exact Hne |].
  intros l Hl.
  assert (Hl1 : l ≠ __dict__ c1).
  { intros ->. apply (is_fresh (dom (heap w))). by rewrite <- Hd1. }
  assert (Hl2 : l ≠ __dict__ c2).
  { intros ->. apply (is_fresh (dom (heap w1))). rewrite <- Hd2.
    rewrite Hh1, dom_insert_L. by apply elem_of_union_r. }
  unfold dict_setitem. rewrite lookup_insert_ne by done.
  rewrite Hh2, <- Hd2, lookup_insert_ne by done.
  rewrite Hh1, <- Hd1, lookup_insert_ne by done. reflexivity.
Qed.

Lemma custom_attributes_are_per_context_witness :
  ∃ c1 w1 c2 w2,
    from_update (VStr "first") example_dispatcher example_world = (Return c1, w1)
    ∧ from_update (VStr "second") example_dispatcher w1 = (Return c2, w2)
    ∧ classify "visits" = Plain
    ∧ ∃ w3,
        setattr "visits" (VInt 1) c1 w2 = (Return c1, w3)
        ∧ getattr "visits" c2 w3 = getattr "visits" c2 w2.
Proof.
  eexists _, _, _, _.
  split; [reflexivity |]. split; [reflexivity |]. split; [reflexivity |].
  destruct (custom_attributes_are_per_context (VStr "first") (VStr "second")
              example_dispatcher example_world _ _ _ _ "visits" (VInt 1)
              eq_refl eq_refl eq_refl) as (w3 & Hset & _ & Hother & _).
  exists w3. by split.
Defined.

End Attributes.

(** ** Refreshing from persistence *)

Section Refresh.
Import CallbackContext ContextSpec ConstructorSpec Persistence.

Variable persistence_of : Dispatcher → option BasePersistence.

Lemma unit_bind_id (m : M unit) (w : World) :
  (_ ← m; mret tt) w = m w.
Proof.
  unfold mbind, M_bind, mret, M_ret. by destruct (m w) as [[[] | e] w'].
Qed.

(** The slots of a context built from an update. *)
Lemma from_update_bindings (u : Update) (d : Dispatcher) (w : World) c w' :
  from_update (VUpdate u) d w = (Return c, w') →
  _dispatcher c = VDispatcher d
  ∧ _chat_id_and_data c
    = match effective_chat u with
      | Some chat =>
          match d_chat_data d !! chat_id chat with
          | Some l => VTuple [VInt (chat_id chat); VDict l]
          | None => VNone
          end
      | None => VNone
      end
  ∧ _user_id_and_data c
    = match effective_user u with
      | Some user =>
          match d_user_data d !! user_id user with
          | Some l => VTuple [VInt (user_id user); VDict l]
          | None => VNone
          end
      | None => VNone
      end.
Proof.
  unfold from_update, mbind, M_bind. rewrite init_eq.
  destruct u as [[[cid] |] [[uid] |]]; simpl;
    unfold store_getitem, mbind, M_bind, mret, M_ret; simpl;
    repeat match goal with
           | |- context [?m !! ?i] =>
               lazymatch type of m with
               | gmap Z loc => destruct (m !! i) eqn:?; simpl; try discriminate
               end
           end;
    intros [= <- <-]; repeat split.
Qed.

(** X17. Without a persistence, or with one that persists no kind of data,
    [refresh_data] returns and changes nothing. *)
Theorem refresh_data_without_persistence (self : Context) (d : Dispatcher)
    (w : World) :
  _dispatcher self = VDispatcher d →
  persistence_of d = None
  ∨ (∃ p, persistence_of d = Some p
          ∧ store_data p = mk_PersistenceInput false false false) →
  refresh_data persistence_of self w = (Return tt, w).
Proof.
  intros Hd Hp.
  unfold refresh_data, persistence, dispatcher, reading, mbind, M_bind.
  rewrite Hd. simpl.
  destruct Hp as [-> | (p & -> & Hsd)]; [reflexivity |].
  by rewrite Hsd.
Qed.

(** X18. For a context built for a job, [refresh_data] is the refresh of
    the global dict alone, when that kind is persisted, and nothing
    otherwise: the chat and user refreshes are never called. *)
Theorem refresh_data_of_job_context
    (j : value) (d : Dispatcher) (w : World) c w' p (w0 : World) :
  from_job j d w = (Return c, w') →
  persistence_of d = Some p →
  refresh_data persistence_of c w0
  = if sd_bot_data (store_data p)
    then refresh_bot_data p (VDict (d_bot_data d)) w0
    else (Return tt, w0).
Proof.
  unfold from_job, mbind at 1, M_bind at 1. rewrite init_eq.
  intros [= <- <-] Hp.
  unfold refresh_data, persistence, dispatcher, reading.
  unfold mbind at 1, M_bind at 1. simpl. rewrite Hp.
  rewrite !andb_false_r.
  destruct (sd_bot_data (store_data p)); [| reflexivity].
  unfold mbind, M_bind, mret, M_ret, bot_data. simpl.
  by destruct (refresh_bot_data p (VDict (d_bot_data d)) w0) as [[[] | e] w1].
Qed.

(** X19. For a context built from an update with a chat and a user,
    [refresh_data] calls the three refreshes in the order bot, chat, user,
    each only when its kind is persisted: the global dict, then the chat id
    with the dict the chat store holds under it, then the user id with the
    dict the user store holds under it. A refresh that raises ends the call:
    the ones after it are not made. *)
Theorem refresh_data_of_update_context
    (u : Update) (d : Dispatcher) (w : World) c w' p chat user lc lu
    (w0 : World) :
  from_update (VUpdate u) d w = (Return c, w') →
  effective_chat u = Some chat →
  effective_user u = Some user →
  d_chat_data d !! chat_id chat = Some lc →
  d_user_data d !! user_id user = Some lu →
  persistence_of d = Some p →
  refresh_data persistence_of c w0
  = (_ ← (if sd_bot_data (store_data p)
          then refresh_bot_data p (VDict (d_bot_data d))
          else mret tt);
     _ ← (if sd_chat_data (store_data p)
          then refresh_chat_data p (VTuple [VInt (chat_id chat); VDict lc])
          else mret tt);
     if sd_user_data (store_data p)
     then refresh_user_data p (VTuple [VInt (user_id user); VDict lu])
     else mret tt) w0.
Proof.
  intros Hb Hchat Huser Hlc Hlu Hp.
  destruct (from_update_bindings u d w c w' Hb) as (Hd & Hc & Hu).
  rewrite Hchat, Hlc in Hc. rewrite Huser, Hlu in Hu.
  unfold refresh_data, persistence, dispatcher, reading, bot_data, dispatcher.
  unfold mbind at 1, M_bind at 1. rewrite Hd, Hc, Hu. simpl. rewrite Hp.
  rewrite !andb_true_r.
  unfold mbind, M_bind, mret, M_ret. simpl.
  destruct (sd_bot_data (store_data p)); simpl;
    [destruct (refresh_bot_data p _ w0) as [[[] | e1] w1]; simpl;
       [| reflexivity] |];
    (destruct (sd_chat_data (store_data p)); simpl;
     [match goal with
      | |- context [refresh_chat_data p ?x ?w] =>
          destruct (refresh_chat_data p x w) as [[[] | e2] w2]; simpl;
          [| reflexivity]
      end |]);
    (destruct (sd_user_data (store_data p)); simpl;
     [match goal with
      | |- context [refresh_user_data p ?x ?w] =>
          by destruct (refresh_user_data p x w) as [[[] | e3] w3]
      end | reflexivity]).
Qed.

(** X20. [refresh_data] does not contain the faults of the persistence:
    when the refresh of the global dict raises, [refresh_data] raises the
    same exception in the world that refresh left, and neither the chat nor
    the user refresh is called. *)
Theorem refresh_data_propagates_faults
    (self : Context) (d : Dispatcher) p (w w1 : World) e :
  _dispatcher self = VDispatcher d →
  persistence_of d = Some p →
  sd_bot_data (store_data p) = true →
  refresh_bot_data p (VDict (d_bot_data d)) w = (Raise e, w1) →
  refresh_data persistence_of self w = (Raise e, w1).
Proof.
  intros Hd Hp Hflag Hraise.
  unfold refresh_data, persistence, dispatcher, reading, bot_data, dispatcher.
  unfold mbind, M_bind. rewrite Hd. simpl. rewrite Hp, Hflag. simpl.
  by rewrite Hraise.
Qed.

End Refresh.

Section RefreshWitnesses.
Import CallbackContext ContextSpec ConstructorSpec Persistence.

Lemma refresh_data_without_persistence_witness :
  _dispatcher example_context = VDispatcher example_dispatcher
  ∧ ((λ _ : Dispatcher, @None BasePersistence) example_dispatcher = None
     ∨ ∃ p, (λ _ : Dispatcher, @None BasePersistence) example_dispatcher = Some p
            ∧ store_data p = mk_PersistenceInput false false false)
  ∧ refresh_data (λ _, None) example_context example_world
    = (Return tt, example_world).
Proof.
  assert (H : _dispatcher example_context = VDispatcher example_dispatcher).
  { vm_compute. reflexivity. }
  split; [exact H |]. split; [by left |].
  exact (refresh_data_without_persistence (λ _, None) example_context
           example_dispatcher example_world H (or_introl eq_refl)).
Defined.

Lemma refresh_data_of_job_context_witness :
  ∃ c w',
    from_job (VObj "job-1") example_dispatcher example_world = (Return c, w')
    ∧ refresh_data (λ _, Some marking_persistence) c w'
      = mark (VDict 1%positive) w'.
Proof.
  eexists _, _. split; [reflexivity |].
  exact (refresh_data_of_job_context (λ _, Some marking_persistence)
           (VObj "job-1") example_dispatcher example_world _ _
           marking_persistence _ eq_refl eq_refl).
Defined.

Lemma refresh_data_of_update_context_witness :
  ∃ c w',
    from_update (VUpdate example_update) example_dispatcher example_world
    = (Return c, w')
    ∧ (refresh_data (λ _, Some marking_persistence) c w').1 = Return tt
    ∧ heap_dict (heap (refresh_data (λ _, Some marking_persistence) c w').2)
        2%positive !! KStr "refreshed" = Some (VBool true).
Proof.
  let r := eval vm_compute in
             (from_update (VUpdate example_update) example_dispatcher
                example_world) in
  assert (Hb : from_update (VUpdate example_update) example_dispatcher
                 example_world = r) by (vm_compute; reflexivity).
  match type of Hb with
  | _ = (Return ?c, ?w') => exists c, w'
  end.
  split; [exact Hb |].
  rewrite (refresh_data_of_update_context (λ _, Some marking_persistence)
             example_update example_dispatcher example_world _ _
             marking_persistence (mk_Chat 42) (mk_User 7) 2%positive 3%positive
             _ Hb eq_refl eq_refl eq_refl eq_refl eq_refl).
  split; vm_compute; reflexivity.
Defined.

Lemma refresh_data_propagates_faults_witness :
  _dispatcher example_context = VDispatcher example_dispatcher
  ∧ raised_class
      (refresh_data (λ _, Some failing_persistence) example_context
         example_world).1 = Some RuntimeError
  ∧ (refresh_data (λ _, Some failing_persistence) example_context
       example_world).2 = example_world.
Proof.
  assert (H : _dispatcher example_context = VDispatcher example_dispatcher).
  { vm_compute. reflexivity. }
  split; [exact H |].
  rewrite (refresh_data_propagates_faults (λ _, Some failing_persistence)
             example_context example_dispatcher failing_persistence
             example_world example_world
             (mk_exn RuntimeError "storage unavailable") H eq_refl eq_refl
             eq_refl).
  by split.
Defined.

End RefreshWitnesses.

(** ** Forwarding properties *)

Section Forwarding.
Import CallbackContext ContextSpec ConstructorSpec.

Lemma from_update_dispatcher (u : value) (d : Dispatcher) (w : World) c w' :
  from_update u d w = (Return c, w') → _dispatcher c = VDispatcher d.
Proof.
  unfold from_update, mbind, M_bind. rewrite init_eq.
  destruct u as [| | | | | | | | | | | [[[cid] |] [[uid] |]]]; simpl;
    unfold store_getitem, mbind, M_bind, mret, M_ret; simpl;
    repeat match goal with
           | |- context [?m !! ?i] =>
               lazymatch type of m with
               | gmap Z loc => destruct (m !! i) eqn:?; simpl; try discriminate
               end
           end;
    by intros [= <- <-].
Qed.

(** X21. A context built from whatever object forwards to the dispatcher it
    was built for: [dispatcher], [bot], [job_queue] and [update_queue] are
    the dispatcher's, and [bot_data] is the dispatcher's one global dict, so
    two contexts of one dispatcher share it. None of the forwarding
    properties, nor [match], can be assigned: the attempt raises
    [AttributeError] and changes nothing. *)
Theorem contexts_forward_to_their_dispatcher
    (u : value) (d : Dispatcher) (w : World) c w' (v : value) :
  from_update u d w = (Return c, w') →
  dispatcher c = Return (VDispatcher d)
  ∧ bot c = Return (VBot (d_bot d))
  ∧ job_queue c = Return (VObj (d_job_queue d))
  ∧ update_queue c = Return (VObj (d_update_queue d))
  ∧ bot_data c = Return (VDict (d_bot_data d))
  ∧ (∀ u2 w2 c2 w2', from_update u2 d w2 = (Return c2, w2') →
       bot_data c2 = bot_data c)
  ∧ Forall (λ name, raised_class (setattr name v c w').1 = Some AttributeError
                    ∧ (setattr name v c w').2 = w'
                    ∧ (update [(name, v)] c w').2 = (c, w'))
      ["dispatcher"; "bot"; "job_queue"; "update_queue"; "match"].
Proof.
  intros Hb. pose proof (from_update_dispatcher _ _ _ _ _ Hb) as Hd.
  unfold dispatcher, bot, job_queue, update_queue, bot_data, dispatcher.
  rewrite Hd. simpl. repeat (split; [reflexivity |]).
  split.
  - intros u2 w2 c2 w2' Hb2.
    by rewrite (from_update_dispatcher _ _ _ _ _ Hb2).
  - repeat (apply Forall_cons; split; [by repeat split |]). apply Forall_nil_2.
Qed.

Lemma contexts_forward_witness :
  ∃ c w',
    from_update (VStr "anything") example_dispatcher example_world
    = (Return c, w')
    ∧ bot c = Return (VBot (ExtBot true)).
Proof.
  eexists _, _. split; [reflexivity |].
  exact (proj1 (proj2 (contexts_forward_to_their_dispatcher (VStr "anything")
           example_dispatcher example_world _ _ VNone eq_refl))).
Defined.

End Forwarding.
